(** * VoiceBot-Demo: the realtime relay and its function-call dispatch

    A shallow embedding of [src/server.py] (class [RealtimeAPIProxy], the
    websocket endpoints and the two pumps) and of the dispatch branch of
    [src/realtime_demo_server.py], followed by the properties the
    specification states about them.

    Conventions of the embedding.
    - Python values that travel as JSON are terms of [json]; a [dict] is an
      association list in insertion order, looked up first-match.
    - A coroutine of the proxy is a function in the monad [M]: it threads the
      proxy object and ends in a value, in a raised exception, or never
      ([Hang]).  Everything the process does to the outside (frames written
      to a websocket, searches, HTTP requests, sleeps) is appended to the
      [trace] of the proxy, in program order.
    - The collaborators (vector store, HTTP servers, Amadeus, the clock, the
      JSON codec) answer through a [World]; a transport accepts every frame
      written to it. *)

From Stdlib Require Import ZArith List String Ascii Bool Lia DecimalString.
From stdpp Require Import base option gmap strings.
Import ListNotations.
Open Scope string_scope.
Open Scope list_scope.

(* ================================================================= *)
(** ** Python values *)

#[local] Set Warnings "-register-all".

Inductive json : Type :=
| JNull
| JBool (b : bool)
| JNum (n : Z)
| JReal (num : Z) (den : positive)
| JStr (s : string)
| JArr (items : list json)
| JObj (fields : list (string * json)).

Inductive exc_kind :=
| TimeoutError | ValueError | TypeError | KeyError | AttributeError
| IndexError | JSONDecodeError | UnboundLocalError | OtherError.

Record exn := mkExn { exn_kind : exc_kind; exn_msg : string }.

(** What awaiting a call ends in. *)
Inductive outcome (A : Type) : Type :=
| Ret (a : A)
| Exc (e : exn)
| Hang.
Arguments Ret {A} a.
Arguments Exc {A} e.
Arguments Hang {A}.

Definition obind {A B} (o : outcome A) (k : A -> outcome B) : outcome B :=
  match o with
  | Ret a => k a
  | Exc e => Exc e
  | Hang => Hang
  end.

Notation "'let*' x ':=' c 'in' k" := (obind c (fun x => k))
  (at level 10, x name, c at level 100, k at level 200).

Module Py.

(** *** str methods (ASCII) *)

Definition is_upper (c : ascii) : bool :=
  let n := nat_of_ascii c in (65 <=? n)%nat && (n <=? 90)%nat.

Definition is_lower (c : ascii) : bool :=
  let n := nat_of_ascii c in (97 <=? n)%nat && (n <=? 122)%nat.

Definition lower_char (c : ascii) : ascii :=
  if is_upper c then ascii_of_nat (nat_of_ascii c + 32) else c.

Definition upper_char (c : ascii) : ascii :=
  if is_lower c then ascii_of_nat (nat_of_ascii c - 32) else c.

Fixpoint lower (s : string) : string :=
  match s with
  | EmptyString => EmptyString
  | String c r => String (lower_char c) (lower r)
  end.

Fixpoint upper (s : string) : string :=
  match s with
  | EmptyString => EmptyString
  | String c r => String (upper_char c) (upper r)
  end.

(** The separators of [str.split()] without argument. *)
Definition is_space (c : ascii) : bool :=
  let n := nat_of_ascii c in
  ((9 <=? n)%nat && (n <=? 13)%nat) || ((28 <=? n)%nat && (n <=? 32)%nat).

Definition push_char (cur : option string) (c : ascii) : option string :=
  match cur with
  | None => Some (String c EmptyString)
  | Some w => Some (w +:+ String c EmptyString)
  end.

Definition flush_word (cur : option string) (rest : list string) : list string :=
  match cur with
  | None => rest
  | Some w => w :: rest
  end.

Fixpoint split_from (cur : option string) (s : string) : list string :=
  match s with
  | EmptyString => flush_word cur []
  | String c r =>
      if is_space c then flush_word cur (split_from None r)
      else split_from (push_char cur c) r
  end.

(** [s.split()] *)
Definition split (s : string) : list string := split_from None s.

(** [sep.join(l)] *)
Fixpoint join (sep : string) (l : list string) : string :=
  match l with
  | [] => ""
  | [w] => w
  | w :: r => w +:+ sep +:+ join sep r
  end.

(** [sub in s] *)
Fixpoint contains (sub s : string) : bool :=
  String.prefix sub s ||
  match s with
  | EmptyString => false
  | String _ r => contains sub r
  end.

Fixpoint replace_from (old new s : string) (skip : nat) : string :=
  match s with
  | EmptyString => EmptyString
  | String c r =>
      match skip with
      | S k => replace_from old new r k
      | O =>
          if String.prefix old s
          then new +:+ replace_from old new r (String.length old - 1)
          else String c (replace_from old new r 0)
      end
  end.

(** [s.replace(old, new)], for a non-empty [old] (every pattern the proxy
    replaces is non-empty). *)
Definition replace (old new s : string) : string := replace_from old new s 0.

Definition startswith (p s : string) : bool := String.prefix p s.

Definition last_char (s : string) : option ascii :=
  String.get (String.length s - 1) s.

(** [s[:n]] *)
Definition slice_to (n : nat) (s : string) : string := substring 0 n s.

(** [s[a:b]] for [0 <= a <= b] *)
Definition slice (a b : nat) (s : string) : string := substring a (b - a) s.

(** [s[1:-1]] *)
Definition strip_ends (s : string) : string :=
  substring 1 (String.length s - 2) s.

Definition str_of_Z (n : Z) : string := NilZero.string_of_int (Z.to_int n).

(** A double quote, a newline, and a text between double quotes. *)
Definition dquote : string := String (ascii_of_nat 34) EmptyString.
Definition newline : string := String (ascii_of_nat 10) EmptyString.
Definition quoted (s : string) : string := dquote +:+ s +:+ dquote.

(** *** values *)

Definition typename (v : json) : string :=
  match v with
  | JNull => "NoneType"
  | JBool _ => "bool"
  | JNum _ => "int"
  | JReal _ _ => "float"
  | JStr _ => "str"
  | JArr _ => "list"
  | JObj _ => "dict"
  end.

(** [bool(v)] *)
Definition truthy (v : json) : bool :=
  match v with
  | JNull => false
  | JBool b => b
  | JNum n => negb (n =? 0)%Z
  | JReal p _ => negb (p =? 0)%Z
  | JStr s => negb (String.eqb s "")
  | JArr l => match l with [] => false | _ => true end
  | JObj f => match f with [] => false | _ => true end
  end.

Fixpoint lookup (k : string) (fields : list (string * json)) : option json :=
  match fields with
  | [] => None
  | (k', v) :: r => if String.eqb k' k then Some v else lookup k r
  end.

Definition no_attribute {A} (v : json) (attr : string) : outcome A :=
  Exc (mkExn AttributeError
         ("'" +:+ typename v +:+ "' object has no attribute '" +:+ attr +:+ "'")).

(** [d.get(k, default)] *)
Definition get (d : json) (k : string) (default : json) : outcome json :=
  match d with
  | JObj f => Ret (match lookup k f with Some v => v | None => default end)
  | _ => no_attribute d "get"
  end.

(** [d.get(k)] *)
Definition get_opt (d : json) (k : string) : outcome json := get d k JNull.

(** [d[k]] with a string key *)
Definition item (d : json) (k : string) : outcome json :=
  match d with
  | JObj f =>
      match lookup k f with
      | Some v => Ret v
      | None => Exc (mkExn KeyError ("'" +:+ k +:+ "'"))
      end
  | JNull | JBool _ | JNum _ | JReal _ _ =>
      Exc (mkExn TypeError ("'" +:+ typename d +:+ "' object is not subscriptable"))
  | JStr _ =>
      Exc (mkExn TypeError "string indices must be integers")
  | JArr _ =>
      Exc (mkExn TypeError "list indices must be integers or slices, not str")
  end.

(** [v == s] for a string literal [s] *)
Definition eq_str (v : json) (s : string) : bool :=
  match v with
  | JStr t => String.eqb t s
  | _ => false
  end.

(** [k in v] for a string literal [k] *)
Definition has (k : string) (v : json) : outcome bool :=
  match v with
  | JObj f => Ret (match lookup k f with Some _ => true | None => false end)
  | JArr l => Ret (existsb (fun x => eq_str x k) l)
  | JStr s => Ret (contains k s)
  | _ => Exc (mkExn TypeError
                ("argument of type '" +:+ typename v +:+ "' is not iterable"))
  end.

(** [isinstance(v, dict)], [isinstance(v, list)], [isinstance(v, str)] *)
Definition is_dict (v : json) : bool := match v with JObj _ => true | _ => false end.
Definition is_list (v : json) : bool := match v with JArr _ => true | _ => false end.
Definition is_str (v : json) : bool := match v with JStr _ => true | _ => false end.

(** [for x in v]: the sequence a loop walks over. *)
Definition iter (v : json) : outcome (list json) :=
  match v with
  | JArr l => Ret l
  | JObj f => Ret (map (fun kv => JStr (fst kv)) f)
  | JStr s => Ret (map (fun c => JStr (String c EmptyString)) (list_ascii_of_string s))
  | _ => Exc (mkExn TypeError ("'" +:+ typename v +:+ "' object is not iterable"))
  end.

End Py.

(* ================================================================= *)
(** ** The proxy object, its collaborators and its effects *)

(** A LangChain document returned by the vector store. *)
Record Document := mkDocument { page_content : string; metadata : json }.

(** A response of an HTTP server: status line and body. *)
Record http_response := mkResponse {
  status : Z;                  (* [response.status] *)
  text : outcome string;       (* [await response.text()] *)
  body_json : outcome json     (* [await response.json()] *)
}.

(** A response of the Amadeus SDK; [None] when it has no [data] attribute. *)
Record amadeus_response := mkAmadeus { data : option json }.

(** The collaborators of the proxy and the library functions whose result
    the code only passes on. *)
Record World := mkWorld {
  (** [rag_store.similarity_search(query, k=top_k)] *)
  similarity_search : json -> json -> outcome (list Document);
  (** [session.get(url, headers=...)] / [session.post(url, headers=..., json=...)]
      of aiohttp, as used by the proxy: no timeout argument is given *)
  http_request : string -> json -> json -> option json -> outcome http_response;
  (** [amadeus_client.shopping.flight_offers_search.get] on the search
      parameters *)
  flight_offers_search : json -> outcome amadeus_response;
  (** [FlightSearchHandler.search_flights(params)] of [flight_handler.py] *)
  enhanced_search_flights : json -> outcome json;
  (** the constructors [Client(...)] and [FlightSearchHandler(...)] succeed *)
  amadeus_client_ok : json -> json -> bool;
  flight_handler_ok : json -> json -> bool;
  (** [json.loads], [json.dumps], [str] of a container or float, [int] and
      [float] of a string *)
  json_loads : string -> outcome json;
  json_dumps : json -> string;
  repr : json -> string;
  int_of_str : string -> outcome Z;
  per_person : json -> Z -> outcome string;
  (** [datetime.now().isoformat()], [str(uuid.uuid4())], elapsed milliseconds *)
  now_isoformat : string;
  uuid4 : string;
  elapsed_ms : Z;
  (** [os.getenv] *)
  getenv : string -> option string;
  (** the instruction text of [configure_openai_session] and of the
      [update_settings] message, as functions of the endpoint list inserted
      into them, and the tool schema of [get_function_definitions], as a
      function of the valid endpoint ids *)
  base_instructions : string -> string;
  settings_instructions : string -> string;
  function_definitions : list json -> json
}.

(** What the process does to the outside, in program order. *)
Inductive effect : Type :=
| UpstreamSend (ws : nat) (msg : json)     (* [openai_ws.send(json.dumps(msg))] *)
| UpstreamClose (ws : nat)                 (* [openai_ws.close()] *)
| ClientSend (ws : nat) (msg : json)       (* [websocket.send_json(msg)] *)
| ClientClose (ws : nat)                   (* [websocket.close()] *)
| Executing (function_name : json) (arguments : json)
                                           (* [logger.info("Executing function: ...")] *)
| SimilaritySearch (query : json) (k : json)
| HttpRequest (method : string) (url headers : json) (body : option json)
| FlightOffersSearch (search_params : json)
| EnhancedFlightSearch (params : json)
| IndexDocument (file_id content : json)   (* [index_document(file_id, content)] *)
| Sleep.                                   (* [asyncio.sleep(0.5)] *)

(** The fields of [RealtimeAPIProxy] the relay reads or writes.  A websocket
    is named by a number; [rag_store], [amadeus_client] and [flight_handler]
    record whether the attribute is set. *)
Record proxy := mkProxy {
  api_key : option string;
  openai_ws : option nat;
  client_connections : gmap string nat;
  disconnected : gset nat;
  rag_store : bool;
  api_config : json;
  amadeus_client : bool;
  amadeus_credentials : list (string * json);
  flight_handler : bool;
  trace : list effect
}.

Definition set_openai_ws (w : option nat) (p : proxy) : proxy :=
  mkProxy (api_key p) w (client_connections p) (disconnected p) (rag_store p)
    (api_config p) (amadeus_client p) (amadeus_credentials p) (flight_handler p)
    (trace p).

Definition set_client_connections (c : gmap string nat) (p : proxy) : proxy :=
  mkProxy (api_key p) (openai_ws p) c (disconnected p) (rag_store p)
    (api_config p) (amadeus_client p) (amadeus_credentials p) (flight_handler p)
    (trace p).

Definition set_amadeus (client : bool) (creds : list (string * json)) (p : proxy) : proxy :=
  mkProxy (api_key p) (openai_ws p) (client_connections p) (disconnected p)
    (rag_store p) (api_config p) client creds (flight_handler p) (trace p).

Definition set_flight_handler (h : bool) (p : proxy) : proxy :=
  mkProxy (api_key p) (openai_ws p) (client_connections p) (disconnected p)
    (rag_store p) (api_config p) (amadeus_client p) (amadeus_credentials p) h
    (trace p).

Definition set_trace (t : list effect) (p : proxy) : proxy :=
  mkProxy (api_key p) (openai_ws p) (client_connections p) (disconnected p)
    (rag_store p) (api_config p) (amadeus_client p) (amadeus_credentials p)
    (flight_handler p) t.

(** *** The monad of coroutines *)

(** A coroutine over an object of type [S]. *)
Definition State (S A : Type) : Type := S -> outcome A * S.

Definition ret {S A} (a : A) : State S A := fun s => (Ret a, s).

Definition bind {S A B} (c : State S A) (k : A -> State S B) : State S B :=
  fun s =>
    match c s with
    | (Ret a, s') => k a s'
    | (Exc e, s') => (Exc e, s')
    | (Hang, s') => (Hang, s')
    end.

Definition lift {S A} (o : outcome A) : State S A := fun s => (o, s).

Definition raise {S A} (e : exn) : State S A := lift (Exc e).

(** [try: c  except Exception as e: h e]; a call that never returns is not
    an exception. *)
Definition try_except {S A} (c : State S A) (h : exn -> State S A) : State S A :=
  fun s =>
    match c s with
    | (Exc e, s') => h e s'
    | r => r
    end.

Definition read {S A} (f : S -> A) : State S A := fun s => (Ret (f s), s).

Definition modify {S} (f : S -> S) : State S unit := fun s => (Ret tt, f s).

(** The coroutines of the proxy. *)
Definition M : Type -> Type := State proxy.

Definition emit (e : effect) : M unit :=
  fun p => (Ret tt, set_trace (trace p ++ [e]) p).

Notation "'do' x <- c ; k" := (bind c (fun x => k))
  (at level 10, x name, c at level 100, k at level 200).
Notation "c ;; k" := (bind c (fun _ => k))
  (at level 100, k at level 200, right associativity).


(* ================================================================= *)
(** ** More of Python, where the answer depends on the world *)

(** [a == b] *)
Fixpoint json_eqb (a b : json) {struct a} : bool :=
  let as_int (x : bool) : Z := if x then 1%Z else 0%Z in
  match a, b with
  | JNull, JNull => true
  | JBool x, JBool y => Bool.eqb x y
  | JBool x, JNum n | JNum n, JBool x => (n =? as_int x)%Z
  | JBool x, JReal p q | JReal p q, JBool x => (p =? as_int x * Z.pos q)%Z
  | JNum x, JNum y => (x =? y)%Z
  | JNum n, JReal p q | JReal p q, JNum n => (p =? n * Z.pos q)%Z
  | JReal p q, JReal p' q' => (p * Z.pos q' =? p' * Z.pos q)%Z
  | JStr x, JStr y => String.eqb x y
  | JArr x, JArr y =>
      (fix all2 (l1 l2 : list json) : bool :=
         match l1, l2 with
         | [], [] => true
         | u :: r1, v :: r2 => json_eqb u v && all2 r1 r2
         | _, _ => false
         end) x y
  | JObj x, JObj y =>
      (length x =? length y)%nat &&
      (fix sub (f : list (string * json)) : bool :=
         match f with
         | [] => true
         | (k, u) :: r =>
             match Py.lookup k y with
             | Some v => json_eqb u v && sub r
             | None => false
             end
         end) x
  | _, _ => false
  end.

(** [x in l] *)
Definition json_mem (x : json) (l : list json) : bool := existsb (json_eqb x) l.

Section WithWorld.
Context (W : World).

(** [str(v)], as an f-string formats a value. *)
Definition py_str (v : json) : string :=
  match v with
  | JNull => "None"
  | JBool true => "True"
  | JBool false => "False"
  | JNum n => Py.str_of_Z n
  | JStr s => s
  | JReal _ _ | JArr _ | JObj _ => repr W v
  end.

(** [int(v)] *)
Definition py_int (v : json) : outcome Z :=
  match v with
  | JNum n => Ret n
  | JBool b => Ret (if b then 1 else 0)%Z
  | JReal p q => Ret (Z.quot p (Z.pos q))
  | JStr s => int_of_str W s
  | JNull | JArr _ | JObj _ =>
      Exc (mkExn TypeError
             ("int() argument must be a string, a bytes-like object or a real number, not '"
              +:+ Py.typename v +:+ "'"))
  end.

(** [v.upper()], [v.lower()] *)
Definition py_upper (v : json) : outcome string :=
  match v with
  | JStr s => Ret (Py.upper s)
  | _ => Py.no_attribute v "upper"
  end.

Definition py_lower (v : json) : outcome string :=
  match v with
  | JStr s => Ret (Py.lower s)
  | _ => Py.no_attribute v "lower"
  end.

(** [v + 1] *)
Definition py_succ (v : json) : outcome json :=
  match v with
  | JNum n => Ret (JNum (n + 1))
  | JBool b => Ret (JNum ((if b then 1 else 0) + 1))
  | JReal p q => Ret (JReal (p + Z.pos q) q)
  | JStr _ =>
      Exc (mkExn TypeError ("can only concatenate str (not " +:+ Py.quoted "int" +:+ ") to str"))
  | _ => Exc (mkExn TypeError
                ("unsupported operand type(s) for +: '" +:+ Py.typename v +:+ "' and 'int'"))
  end.

(** [v[0]] *)
Definition py_first (v : json) : outcome json :=
  match v with
  | JArr (x :: _) => Ret x
  | JArr [] => Exc (mkExn IndexError "list index out of range")
  | JStr (String c _) => Ret (JStr (String c EmptyString))
  | JStr EmptyString => Exc (mkExn IndexError "string index out of range")
  | JObj _ => Exc (mkExn KeyError "0")
  | _ => Exc (mkExn TypeError ("'" +:+ Py.typename v +:+ "' object is not subscriptable"))
  end.

(** [sep.join(l)] on values: every item has to be a [str]. *)
Fixpoint strings_of (l : list json) (i : nat) : outcome (list string) :=
  match l with
  | [] => Ret []
  | JStr s :: r => let* t := strings_of r (S i) in Ret (s :: t)
  | v :: _ =>
      Exc (mkExn TypeError
             ("sequence item " +:+ Py.str_of_Z (Z.of_nat i) +:+ ": expected str instance, "
              +:+ Py.typename v +:+ " found"))
  end.

Definition py_join (sep : string) (l : list json) : outcome string :=
  let* ws := strings_of l 0 in Ret (Py.join sep ws).

(* ================================================================= *)
(** ** Capability providers of [RealtimeAPIProxy] *)

(** *** [search_rag] *)

(** One pass of the [for i, doc in enumerate(docs)] loop: the entry appended
    to [results] and the file name offered to [sources]. *)
Definition rag_entry (i : nat) (doc : Document) : outcome (json * json) :=
  let* filename := Py.get (metadata doc) "filename" (JStr "unknown") in
  let* chunk_index := Py.get (metadata doc) "chunk_index" (JNum 0) in
  let* file_id := Py.get (metadata doc) "file_id" (JStr "unknown") in
  let* next := py_succ chunk_index in
  Ret (JObj [("content", JStr (page_content doc));
             ("metadata", metadata doc);
             ("relevance_rank", JNum (Z.of_nat i + 1));
             ("file_id", file_id);
             ("source", JStr (py_str filename +:+ " (chunk " +:+ py_str next +:+ ")"))],
       filename).

Fixpoint rag_entries (i : nat) (docs : list Document) (results sources : list json)
  : outcome (list json * list json) :=
  match docs with
  | [] => Ret (results, sources)
  | doc :: rest =>
      let* e := rag_entry i doc in
      rag_entries (S i) rest (results ++ [fst e])
        (if json_mem (snd e) sources then sources else sources ++ [snd e])
  end.

(** [r['content']] of an entry built by [rag_entry] *)
Definition content_of (r : json) : string :=
  match r with
  | JObj f => match Py.lookup "content" f with Some (JStr c) => c | _ => "" end
  | _ => ""
  end.

Definition rag_summary (results sources : list json) : outcome string :=
  let* names := py_join ", " sources in
  Ret ("Found " +:+ Py.str_of_Z (Z.of_nat (length results)) +:+ " relevant chunks from "
       +:+ Py.str_of_Z (Z.of_nat (length sources)) +:+ " document(s): " +:+ names
       +:+ ". Content: " +:+ Py.join " " (map content_of (take 2 results))).

(** [rag_store.similarity_search(query, k=top_k)] *)
Definition search_store (query top_k : json) : M (list Document) :=
  emit (SimilaritySearch query top_k) ;;
  lift (similarity_search W query top_k).

Definition no_documents_message : string :=
  "No relevant documents found. Please make sure documents are uploaded to the knowledge base.".

(** The answer when both searches come back empty. *)
Definition no_documents (query : json) : json :=
  JObj [("query", query);
        ("results", JArr []);
        ("count", JNum 0);
        ("message", JStr no_documents_message)].

Definition search_rag (query top_k : json) : M json :=
  try_except
    (do store <- read rag_store;
     if negb store
     then ret (JObj [("error", JStr "Knowledge base not initialized"); ("results", JArr [])])
     else
       do docs <- search_store query top_k;
       do docs <-
         match docs with
         | [] =>
             do lowered <- lift (py_lower query);
             let keywords := take 3 (Py.split lowered) in
             let keyword_query := Py.join " " keywords in
             search_store (JStr keyword_query) top_k
         | _ => ret docs
         end;
       match docs with
       | [] => ret (no_documents query)
       | _ =>
           do rs <- lift (rag_entries 0 docs [] []);
           let results := fst rs in
           let sources := snd rs in
           do summary <- lift (rag_summary results sources);
           ret (JObj [("query", query);
                      ("results", JArr results);
                      ("count", JNum (Z.of_nat (length results)));
                      ("sources", JArr sources);
                      ("summary", JStr summary)])
       end)
    (fun e => ret (JObj [("error", JStr (exn_msg e)); ("results", JArr [])])).

(** *** [execute_workflow] *)

Definition workflows : list (string * list string) :=
  [("customer_onboarding",
    ["verify_identity"; "create_account"; "send_welcome_email"; "schedule_followup"]);
   ("support_ticket",
    ["categorize_issue"; "check_knowledge_base"; "create_ticket"; "assign_agent";
     "send_confirmation"]);
   ("order_processing",
    ["validate_order"; "check_inventory"; "process_payment"; "generate_invoice";
     "arrange_shipping"]);
   ("data_analysis",
    ["fetch_data"; "clean_data"; "run_analysis"; "generate_report"])].

Fixpoint workflow_steps (table : list (string * list string)) (k : string) : option (list string) :=
  match table with
  | [] => None
  | (name, steps) :: r => if String.eqb name k then Some steps else workflow_steps r k
  end.

(** [workflows.get(workflow_type, [])]: a key that is not a string is not in
    the table, and a list or a dict is not hashable. *)
Definition workflows_get (workflow_type : json) : outcome (list string) :=
  match workflow_type with
  | JStr k => Ret (match workflow_steps workflows k with Some s => s | None => [] end)
  | JArr _ | JObj _ =>
      Exc (mkExn TypeError ("unhashable type: '" +:+ Py.typename workflow_type +:+ "'"))
  | _ => Ret []
  end.

(** The simulation loop: half a second of sleep, then the step is completed. *)
Fixpoint run_steps (steps completed : list string) : M (list string) :=
  match steps with
  | [] => ret completed
  | step :: r => emit Sleep ;; run_steps r (completed ++ [step])
  end.

(** The dict [execute_workflow] returns. *)
Definition workflow_result (workflow_type : json) (completed_steps : list string)
    (parameters : json) : json :=
  JObj [("workflow_id", JStr (uuid4 W));
        ("type", workflow_type);
        ("status", JStr "completed");
        ("steps_executed", JArr (map JStr completed_steps));
        ("duration_ms", JNum (elapsed_ms W));
        ("parameters", parameters)].

Definition execute_workflow (workflow_type parameters : json) : M json :=
  do steps <- lift (workflows_get workflow_type);
  do completed_steps <- run_steps steps [];
  ret (workflow_result workflow_type completed_steps parameters).

(** *** [call_api_legacy] *)

Definition timestamp : json := JStr (now_isoformat W).

Definition api_success (endpoint method response : json) : json :=
  JObj [("endpoint", endpoint); ("method", method); ("response", response);
        ("timestamp", timestamp); ("status", JStr "success")].

Definition api_error (endpoint method : json) (message : string) : json :=
  JObj [("endpoint", endpoint); ("method", method); ("error", JStr message);
        ("timestamp", timestamp); ("status", JStr "error")].

(** [session.get(url, headers=...)] and [session.post(...)]: the request goes
    out and the coroutine waits for the response, with no bound of its own. *)
Definition request (method : string) (url headers : json) (body : option json)
  : M http_response :=
  emit (HttpRequest method url headers body) ;;
  lift (http_request W method url headers body).

(** [v.replace(old, new)] *)
Definition py_replace (v : json) (old new : string) : outcome json :=
  match v with
  | JStr s => Ret (JStr (Py.replace old new s))
  | _ => Py.no_attribute v "replace"
  end.

(** [v + suffix] for a string literal *)
Definition py_concat (v : json) (suffix : string) : outcome json :=
  match v with
  | JStr s => Ret (JStr (s +:+ suffix))
  | _ => Exc (mkExn TypeError
                ("unsupported operand type(s) for +: '" +:+ Py.typename v +:+ "' and 'str'"))
  end.

(** [len(v)] *)
Definition py_len (v : json) : outcome nat :=
  match v with
  | JArr l => Ret (length l)
  | JObj f => Ret (length f)
  | JStr s => Ret (String.length s)
  | _ => Exc (mkExn TypeError ("object of type '" +:+ Py.typename v +:+ "' has no len()"))
  end.

(** The common shape of a legacy branch: one GET; on status 200 the body is
    decoded and reshaped by [shape]; [None] when the branch falls through. *)
Definition legacy_get (endpoint method : json) (url : string) (headers : json)
    (shape : json -> outcome (option json)) : M (option json) :=
  do r <- request "GET" (JStr url) headers None;
  if (status r =? 200)%Z
  then
    do payload <- lift (body_json r);
    do response <- lift (shape payload);
    ret (match response with
         | Some resp => Some (api_success endpoint method resp)
         | None => None
         end)
  else ret None.

Definition field (payload : json) (name : string) (key : string) (default : json)
  : outcome (string * json) :=
  let* v := Py.get payload key default in Ret (name, v).

Definition weather_shape (location : string) (payload : json) : outcome (option json) :=
  let* cc := Py.get payload "current_condition" (JArr [JObj []]) in
  let* current := py_first cc in
  let* temp_F := Py.get current "temp_F" (JNum 0) in
  let* temperature := py_int temp_F in
  let* desc := Py.get current "weatherDesc" (JArr [JObj []]) in
  let* desc0 := py_first desc in
  let* condition := Py.get desc0 "value" (JStr "Unknown") in
  let* hum := Py.get current "humidity" (JNum 0) in
  let* humidity := py_int hum in
  let* miles := Py.get current "windspeedMiles" (JStr "0") in
  let* wind_speed := py_concat miles " mph" in
  let* feels := Py.get current "FeelsLikeF" (JNum 0) in
  let* feels_like := py_int feels in
  Ret (Some (JObj [("temperature", JNum temperature);
                   ("condition", condition);
                   ("humidity", JNum humidity);
                   ("location", JStr (Py.replace "+" " " location));
                   ("wind_speed", wind_speed);
                   ("feels_like", JNum feels_like)])).

Definition dad_jokes_shape (payload : json) : outcome (option json) :=
  let* joke := Py.get payload "joke"
      (JStr "Why did the scarecrow win an award? He was outstanding in his field!") in
  Ret (Some (JObj [("joke", joke); ("category", JStr "dad_joke")])).

Definition fact_shape (payload : json) : outcome (option json) :=
  let* fact := Py.get payload "text"
      (JStr "The moon is moving away from Earth at a rate of 1.5 inches per year.") in
  Ret (Some (JObj [("fact", fact); ("category", JStr "random")])).

Definition quote_shape (payload : json) : outcome (option json) :=
  let* quote_data := if Py.is_list payload then py_first payload else Ret payload in
  let* quote := Py.get quote_data "content" (JStr "Believe in yourself.") in
  let* author := Py.get quote_data "author" (JStr "Unknown") in
  Ret (Some (JObj [("quote", quote); ("author", author)])).

Definition advice_shape (payload : json) : outcome (option json) :=
  let* slip := Py.get payload "slip" (JObj []) in
  let* advice := Py.get slip "advice" (JStr "Always be kind to others.") in
  Ret (Some (JObj [("advice", advice); ("category", JStr "life")])).

Definition activity_shape (payload : json) : outcome (option json) :=
  let* activity := Py.get payload "activity" (JStr "Learn a new skill") in
  let* type := Py.get payload "type" (JStr "education") in
  let* participants := Py.get payload "participants" (JNum 1) in
  let* accessibility := Py.get payload "accessibility" (JReal 1 2) in
  Ret (Some (JObj [("activity", activity); ("type", type);
                   ("participants", participants); ("accessibility", accessibility)])).

Definition number_shape (number : json) (payload : json) : outcome (option json) :=
  let* fact := Py.get payload "text" (JStr (py_str number +:+ " is an interesting number.")) in
  let* type := Py.get payload "type" (JStr "trivia") in
  Ret (Some (JObj [("number", number); ("fact", fact); ("type", type)])).

Definition dog_shape (payload : json) : outcome (option json) :=
  let* image_url := Py.get payload "message" (JStr "") in
  let* st := Py.get payload "status" (JStr "success") in
  Ret (Some (JObj [("image_url", image_url);
                   ("fact", JStr "Dogs have been human companions for over 15,000 years!");
                   ("status", st)])).

Definition affirmation_shape (payload : json) : outcome (option json) :=
  let* affirmation := Py.get payload "affirmation" (JStr "You are capable of amazing things.") in
  Ret (Some (JObj [("affirmation", affirmation); ("category", JStr "positive")])).

Definition kanye_shape (payload : json) : outcome (option json) :=
  let* quote := Py.get payload "quote" (JStr "I am a creative genius.") in
  Ret (Some (JObj [("quote", quote); ("author", JStr "Kanye West")])).

Definition trivia_shape (payload : json) : outcome (option json) :=
  if Py.truthy payload
  then
    let* n := py_len payload in
    if (0 <? n)%nat
    then
      let* trivia := py_first payload in
      let* question := Py.get trivia "question" (JObj []) in
      let* question_text := Py.get question "text" (JStr "What is the capital of France?") in
      let* answer := Py.get trivia "correctAnswer" (JStr "Paris") in
      let* category := Py.get trivia "category" (JStr "general") in
      let* difficulty := Py.get trivia "difficulty" (JStr "medium") in
      Ret (Some (JObj [("question", question_text); ("answer", answer);
                       ("category", category); ("difficulty", difficulty)]))
    else Ret None
  else Ret None.

Definition is_one_of (endpoint : json) (names : list string) : bool :=
  existsb (Py.eq_str endpoint) names.

Definition accept_json : json := JObj [("Accept", JStr "application/json")].

(** The [if/elif] chain of [call_api_legacy]; [None] when no branch returned. *)
Definition legacy_branch (endpoint method params : json) : M (option json) :=
  if is_one_of endpoint ["weather"] then
    do loc <- lift (Py.get params "location" (JStr "New York"));
    do location <- lift (py_replace loc " " "+");
    let location := py_str location in
    legacy_get endpoint method ("https://wttr.in/" +:+ location +:+ "?format=j1") JNull
      (weather_shape location)
  else if is_one_of endpoint ["dad_jokes"] then
    legacy_get endpoint method "https://icanhazdadjoke.com/" accept_json dad_jokes_shape
  else if is_one_of endpoint ["fun_fact"; "fact"] then
    legacy_get endpoint method "https://uselessfacts.jsph.pl/api/v2/facts/random" JNull
      fact_shape
  else if is_one_of endpoint ["motivational_quote"; "inspiration"] then
    legacy_get endpoint method "https://api.quotable.io/quotes/random" JNull quote_shape
  else if is_one_of endpoint ["random_advice"; "advice"] then
    legacy_get endpoint method "https://api.adviceslip.com/advice" JNull advice_shape
  else if is_one_of endpoint ["bored_activity"; "activity"] then
    legacy_get endpoint method "https://boredapi.com/api/activity" JNull activity_shape
  else if is_one_of endpoint ["number_fact"; "number"] then
    do number <- lift (Py.get params "number" (JNum 42));
    legacy_get endpoint method ("http://numbersapi.com/" +:+ py_str number +:+ "?json") JNull
      (number_shape number)
  else if is_one_of endpoint ["dog"; "dog_fact"] then
    legacy_get endpoint method "https://dog.ceo/api/breeds/image/random" JNull dog_shape
  else if is_one_of endpoint ["affirmation"] then
    legacy_get endpoint method "https://www.affirmations.dev/" JNull affirmation_shape
  else if is_one_of endpoint ["kanye"] then
    legacy_get endpoint method "https://api.kanye.rest/" JNull kanye_shape
  else if is_one_of endpoint ["trivia"] then
    legacy_get endpoint method "https://the-trivia-api.com/v2/questions?limit=1" JNull
      trivia_shape
  else ret None.

Definition call_api_legacy (endpoint method params : json) : M json :=
  let params := match params with JNull => JObj [] | _ => params end in
  try_except
    (do r <- legacy_branch endpoint method params;
     match r with
     | Some result => ret result
     | None => ret (api_error endpoint method ("Unknown endpoint: " +:+ py_str endpoint))
     end)
    (fun e => ret (api_error endpoint method (exn_msg e))).

(** *** [search_flights] *)

Definition flights_error (message : string) : json :=
  JObj [("endpoint", JStr "flight_search"); ("error", JStr message);
        ("status", JStr "error")].

(** [asyncio.wait_for(call, timeout=20.0)]: a call that does not return
    within the bound raises [asyncio.TimeoutError]. *)
Definition wait_for {A} (call : outcome A) : outcome A :=
  match call with
  | Hang => Exc (mkExn TimeoutError "")
  | answered => answered
  end.

(** [v[a:b]] *)
Definition py_slice (a b : nat) (v : json) : outcome json :=
  match v with
  | JStr s => Ret (JStr (Py.slice a b s))
  | JArr l => Ret (JArr (take (b - a) (drop a l)))
  | JObj _ => Exc (mkExn TypeError "unhashable type: 'slice'")
  | _ => Exc (mkExn TypeError ("'" +:+ Py.typename v +:+ "' object is not subscriptable"))
  end.

(** The offers the parsing loop walks over: [response.data[:5]]. *)
Definition first_offers (payload : json) : outcome (list json) :=
  let* head := py_slice 0 5 payload in Py.iter head.

Definition is_value_or_type_error (e : exn) : bool :=
  match exn_kind e with
  | ValueError | TypeError | JSONDecodeError => true
  | _ => false
  end.

(** The price per person shown for an offer (inner [try] of the loop). *)
Definition price_per_person (currency price : json) (adults children : Z) : outcome string :=
  let plain := py_str currency +:+ " " +:+ py_str price in
  if negb (Py.eq_str price "N/A") && (1 <? adults + children)%Z
  then
    match per_person W price (adults + children) with
    | Ret q => Ret (py_str currency +:+ " " +:+ q)
    | Exc e => if is_value_or_type_error e then Ret plain else Exc e
    | Hang => Hang
    end
  else Ret plain.

Definition booking_url (origin destination : string) (departure_date : json)
  : outcome (option string) :=
  match getenv W "TRAVELPAYOUTS_TOKEN" with
  | Some token =>
      if negb (String.eqb token "") && negb (Py.startswith "your_" token)
      then
        let base_url :=
          match getenv W "AFFILIATE_BASE_URL" with
          | Some u => u
          | None => "https://www.aviasales.com"
          end in
        let* yyyy := py_slice 0 4 departure_date in
        let* mm := py_slice 5 7 departure_date in
        let* dd := py_slice 8 10 departure_date in
        let marker :=
          match getenv W "TRAVELPAYOUTS_MARKER" with Some m => m | None => "" end in
        Ret (Some (base_url +:+ "/search/" +:+ origin +:+ py_str yyyy +:+ py_str mm
                   +:+ py_str dd +:+ destination +:+ "1?marker=" +:+ marker))
      else Ret None
  | None => Ret None
  end.

(** The body of the loop over the offers; [Ret None] is a [continue]. *)
Definition flight_info (origin destination : string) (departure_date : json)
    (adults children : Z) (travel_class : string) (trip_type : json) (offer : json)
  : outcome (option json) :=
  if negb (Py.is_dict offer) then Ret None else
  let* price_info := Py.get offer "price" (JObj []) in
  let* price :=
    if Py.is_dict price_info then Py.get price_info "total" (JStr "N/A") else Ret (JStr "N/A") in
  let* currency :=
    if Py.is_dict price_info then Py.get price_info "currency" (JStr "USD") else Ret (JStr "USD") in
  let* itineraries := Py.get offer "itineraries" (JArr []) in
  if negb (Py.truthy itineraries) || negb (Py.is_list itineraries) then Ret None else
  let* it0 := py_first itineraries in
  let first_itinerary := if Py.is_dict it0 then it0 else JObj [] in
  let* segments := Py.get first_itinerary "segments" (JArr []) in
  if negb (Py.truthy segments) || negb (Py.is_list segments) then Ret None else
  let* seg0 := py_first segments in
  let first_segment := if Py.is_dict seg0 then seg0 else JObj [] in
  let* airline := Py.get first_segment "carrierCode" (JStr "Unknown") in
  let* departure_info := Py.get first_segment "departure" (JObj []) in
  let* arrival_info := Py.get first_segment "arrival" (JObj []) in
  let* departure_time :=
    if Py.is_dict departure_info then Py.get departure_info "at" (JStr "N/A")
    else Ret (JStr "N/A") in
  let* arrival_time :=
    if Py.is_dict arrival_info then Py.get arrival_info "at" (JStr "N/A")
    else Ret (JStr "N/A") in
  let* duration := Py.get first_itinerary "duration" (JStr "N/A") in
  let* ppp := price_per_person currency price adults children in
  let* n_segments := py_len segments in
  let info :=
    [("airline", airline);
     ("price", JStr (py_str currency +:+ " " +:+ py_str price));
     ("price_per_person", JStr ppp);
     ("departure", departure_time);
     ("arrival", arrival_time);
     ("duration", duration);
     ("stops", JNum (Z.of_nat n_segments - 1));
     ("travel_class", JStr travel_class);
     ("trip_type", trip_type)] in
  let* link := booking_url origin destination departure_date in
  Ret (Some (JObj (match link with
                   | Some u => info ++ [("booking_url", JStr u)]
                   | None => info
                   end))).

(** [for idx, offer in enumerate(response.data[:5])], with the [try] around
    the body: an offer that raises is logged and skipped. *)
Fixpoint parse_offers (info : json -> outcome (option json)) (offers flights : list json)
  : outcome (list json) :=
  match offers with
  | [] => Ret flights
  | offer :: rest =>
      match info offer with
      | Ret (Some f) => parse_offers info rest (flights ++ [f])
      | Ret None | Exc _ => parse_offers info rest flights
      | Hang => Hang
      end
  end.

Definition optional (cond : bool) (entry : string * json) : list (string * json) :=
  if cond then [entry] else [].

(** The fallback ("original implementation") branch of [search_flights]. *)
Definition builtin_search_flights (params : json) : M json :=
  try_except
    (do client <- read amadeus_client;
     if negb client
     then ret (flights_error
                 "Flight search not configured. Please set up Amadeus API credentials.")
     else
       do origin <- lift (let* o := Py.get params "origin" (JStr "") in
                          let* u := py_upper o in Ret (Py.slice_to 3 u));
       do destination <- lift (let* d := Py.get params "destination" (JStr "") in
                               let* u := py_upper d in Ret (Py.slice_to 3 u));
       do departure_date <- lift (Py.get_opt params "departure_date");
       do return_date <- lift (Py.get_opt params "return_date");
       do adults <- lift (let* a := Py.get params "adults" (JNum 1) in py_int a);
       do children <- lift (let* c := Py.get params "children" (JNum 0) in py_int c);
       do infants <- lift (let* i := Py.get params "infants" (JNum 0) in py_int i);
       do travel_class <- lift (let* t := Py.get params "travel_class" (JStr "ECONOMY") in
                                py_upper t);
       do nonstop_only <- lift (Py.get params "nonstop_only" (JBool false));
       do max_price <- lift (Py.get_opt params "max_price");
       do trip_type <- lift (Py.get params "trip_type"
                               (JStr (if Py.truthy return_date then "roundtrip" else "oneway")));
       if String.eqb origin "" || String.eqb destination "" || negb (Py.truthy departure_date)
       then ret (flights_error
                   "Missing required parameters: origin, destination, and departure_date")
       else
         do price_cap <- lift (if Py.truthy max_price
                               then let* m := py_int max_price in Ret [("maxPrice", JNum m)]
                               else Ret []);
         let search_params :=
           JObj ([("originLocationCode", JStr origin);
                  ("destinationLocationCode", JStr destination);
                  ("departureDate", departure_date);
                  ("adults", JNum adults);
                  ("max", JNum 5)]
                 ++ optional (Py.truthy return_date) ("returnDate", return_date)
                 ++ optional (0 <? children)%Z ("children", JNum children)
                 ++ optional (0 <? infants)%Z ("infants", JNum infants)
                 ++ optional (negb (String.eqb travel_class "ECONOMY"))
                      ("travelClass", JStr travel_class)
                 ++ optional (Py.truthy nonstop_only) ("nonStop", JStr "true")
                 ++ price_cap) in
         emit (FlightOffersSearch search_params) ;;
         match wait_for (flight_offers_search W search_params) with
         | Hang => lift Hang
         | Exc e =>
             match exn_kind e with
             | TimeoutError =>
                 ret (flights_error
                        "Flight search is taking longer than expected. Please try again.")
             | _ => ret (flights_error ("Failed to search flights: " +:+ exn_msg e))
             end
         | Ret response =>
             match data response with
             | None => ret (flights_error "Invalid response from flight search API")
             | Some payload =>
                 if negb (Py.truthy payload)
                 then
                   ret (JObj [("endpoint", JStr "flight_search");
                              ("method", JStr "POST");
                              ("response",
                               JObj [("origin", JStr origin);
                                     ("destination", JStr destination);
                                     ("departure_date", departure_date);
                                     ("return_date", return_date);
                                     ("passengers",
                                      JStr (Py.str_of_Z adults +:+ " adults"
                                            +:+ (if (children =? 0)%Z then ""
                                                 else ", " +:+ Py.str_of_Z children +:+ " children")
                                            +:+ (if (infants =? 0)%Z then ""
                                                 else ", " +:+ Py.str_of_Z infants +:+ " infants")));
                                     ("travel_class", JStr travel_class);
                                     ("flights", JArr []);
                                     ("message",
                                      JStr "No flights found for the specified route and date.")]);
                              ("status", JStr "success")])
                 else
                   do offers <- lift (first_offers payload);
                   do flights <- lift (parse_offers
                                         (flight_info origin destination departure_date
                                            adults children travel_class trip_type)
                                         offers []);
                   ret (JObj [("endpoint", JStr "flight_search");
                              ("method", JStr "POST");
                              ("response",
                               JObj [("origin", JStr origin);
                                     ("destination", JStr destination);
                                     ("departure_date", departure_date);
                                     ("return_date", return_date);
                                     ("flights", JArr flights);
                                     ("total_results", JNum (Z.of_nat (length flights)));
                                     ("passengers",
                                      JObj [("adults", JNum adults);
                                            ("children", JNum children);
                                            ("infants", JNum infants);
                                            ("total", JNum (adults + children + infants))]);
                                     ("search_criteria",
                                      JObj [("travel_class", JStr travel_class);
                                            ("nonstop_only", nonstop_only);
                                            ("max_price", max_price);
                                            ("trip_type", trip_type)]);
                                     ("message",
                                      JStr ("Found " +:+ Py.str_of_Z (Z.of_nat (length flights))
                                            +:+ " " +:+ Py.lower travel_class +:+ " "
                                            +:+ (if Py.truthy nonstop_only then "non-stop " else "")
                                            +:+ "flights from " +:+ origin +:+ " to " +:+ destination
                                            +:+ " for " +:+ Py.str_of_Z (adults + children + infants)
                                            +:+ " passenger(s)"))]);
                              ("timestamp", timestamp);
                              ("status", JStr "success")])
             end
         end)
    (fun e => ret (flights_error ("An error occurred during flight search: " +:+ exn_msg e))).

Definition search_flights (params : json) : M json :=
  do enhanced <- read flight_handler;
  if enhanced
  then
    emit (EnhancedFlightSearch params) ;;
    do result <- lift (enhanced_search_flights W params);
    do st <- lift (Py.item result "status");
    if Py.eq_str st "success"
    then ret (JObj [("endpoint", JStr "amadeus_flight_search");
                    ("method", JStr "POST");
                    ("response", result);
                    ("timestamp", timestamp);
                    ("status", JStr "success")])
    else
      do message <- lift (Py.get result "message" (JStr "Flight search failed"));
      do code <- lift (Py.get result "error_code" (JStr "UNKNOWN"));
      ret (JObj [("endpoint", JStr "amadeus_flight_search");
                 ("error", message);
                 ("error_code", code);
                 ("timestamp", timestamp);
                 ("status", JStr "error")])
  else builtin_search_flights params.

(** *** [call_api] *)

(** The loop that looks the endpoint up among the configured ones. *)
Fixpoint find_api (endpoint : json) (apis : list json) : outcome (option json) :=
  match apis with
  | [] => Ret None
  | api :: rest =>
      let* id := Py.item api "id" in
      if json_eqb id endpoint
      then
        let* active := Py.get api "active" (JBool true) in
        if Py.truthy active then Ret (Some api) else find_api endpoint rest
      else find_api endpoint rest
  end.

(** [d[k] = v] *)
Fixpoint dict_set (k : string) (v : json) (fields : list (string * json))
  : list (string * json) :=
  match fields with
  | [] => [(k, v)]
  | (k', v') :: r => if String.eqb k' k then (k, v) :: r else (k', v') :: dict_set k v r
  end.

Definition py_startswith (v : json) (p : string) : outcome bool :=
  match v with
  | JStr s => Ret (Py.startswith p s)
  | _ => Py.no_attribute v "startswith"
  end.

(** [initialize_amadeus]: whether it returns a client. *)
Definition initialize_amadeus (client_id client_secret : json) : M bool :=
  try_except
    (do creds <- read amadeus_credentials;
     let stored k := match Py.lookup k creds with Some v => v | None => JNull end in
     let client_id := if Py.truthy client_id then client_id else stored "client_id" in
     let client_secret :=
       if Py.truthy client_secret then client_secret else stored "client_secret" in
     do usable <- lift (if Py.truthy client_id && Py.truthy client_secret
                        then let* placeholder := py_startswith client_id "your_" in
                             Ret (negb placeholder && negb (json_eqb client_id (JStr "")))
                        else Ret false);
     if usable
     then
       if amadeus_client_ok W client_id client_secret
       then
         modify (fun p =>
           set_amadeus (amadeus_client p)
             (dict_set "client_secret" client_secret (dict_set "client_id" client_id creds)) p) ;;
         ret true
       else raise (mkExn OtherError "Amadeus client could not be created")
     else ret false)
    (fun _ => ret false).

(** [param in params], for the dict [params] *)
Definition key_in (name params : json) : outcome bool :=
  match name with
  | JStr k => Py.has k params
  | JArr _ | JObj _ =>
      Exc (mkExn TypeError ("unhashable type: '" +:+ Py.typename name +:+ "'"))
  | _ => Ret false
  end.

(** The loop that fills the [{param}] placeholders of the URL. *)
Fixpoint substitute (names : list json) (params url : json) : outcome json :=
  match names with
  | [] => Ret url
  | name :: rest =>
      let* present := key_in name params in
      if present
      then
        let* value := match name with
                      | JStr k => Py.get params k (JStr "")
                      | _ => Ret (JStr "")
                      end in
        let* url' := py_replace url ("{" +:+ py_str name +:+ "}") (py_str value) in
        substitute rest params url'
      else substitute rest params url
  end.

Definition separator (url : json) : outcome string :=
  let* q := Py.has "?" url in Ret (if q then "&" else "?").

(** The URL and the headers of the request, as the [try] block builds them. *)
Definition build_request (endpoint api params : json) : outcome (json * json) :=
  let* url := Py.item api "url" in
  let* names := Py.get_opt api "params" in
  let* url := if Py.truthy names && Py.is_list names
              then let* l := Py.iter names in substitute l params url
              else Ret url in
  let* declared := Py.get api "headers" (JObj []) in
  let* headers := match declared with
                  | JObj _ | JArr _ => Ret declared
                  | _ => Py.no_attribute declared "copy"
                  end in
  let* engine := if Py.eq_str endpoint "google_custom_search"
                 then Py.get_opt api "search_engine_id"
                 else Ret (JBool false) in
  let* url :=
    if Py.truthy engine
    then
      let* has_cx := Py.has "cx" params in
      let* cx := Py.get_opt params "cx" in
      let* url := if negb has_cx || negb (Py.truthy cx)
                  then match engine with
                       | JStr cx_value => py_replace url "{cx}" cx_value
                       | _ => match url with
                              | JStr _ =>
                                  Exc (mkExn TypeError
                                         ("replace() argument 2 must be str, not "
                                          +:+ Py.typename engine))
                              | _ => Py.no_attribute url "replace"
                              end
                       end
                  else Ret url in
      let* search_type := Py.get_opt params "searchType" in
      let* type := Py.get_opt params "type" in
      if Py.eq_str search_type "image" || Py.eq_str type "image"
      then let* sep := separator url in
           Ret (JStr (py_str url +:+ sep +:+ "searchType=image"))
      else Ret url
    else Ret url in
  let* key := Py.get_opt api "api_key" in
  if Py.truthy key
  then
    let* auth_type := Py.get api "auth_type" (JStr "none") in
    let* auth_param := Py.get api "auth_param" (JStr "Authorization") in
    if Py.eq_str auth_type "header"
    then
      let* lowered := py_lower auth_param in
      let value := if String.eqb lowered "authorization"
                   then JStr ("Bearer " +:+ py_str key) else key in
      match headers with
      | JObj f => Ret (url, JObj (dict_set (py_str auth_param) value f))
      | _ => Exc (mkExn TypeError "list indices must be integers or slices, not str")
      end
    else if Py.eq_str auth_type "query"
    then let* sep := separator url in
         Ret (JStr (py_str url +:+ sep +:+ py_str auth_param +:+ "=" +:+ py_str key), headers)
    else Ret (url, headers)
  else Ret (url, headers).

Definition is_placeholder (value : string) : bool :=
  Py.startswith "{" value &&
  match Py.last_char value with
  | Some c => Ascii.eqb c "}"%char
  | None => false
  end.

(** The body of a POST: the template of the endpoint with its placeholders
    filled from [params], or [params] itself. *)
Definition build_body (api params : json) : outcome json :=
  let* template := Py.get_opt api "body_template" in
  if Py.truthy template
  then
    match template with
    | JObj f =>
        let fill (kv : string * json) : outcome (string * json) :=
          match snd kv with
          | JStr value =>
              if is_placeholder value
              then
                let param_key := Py.strip_ends value in
                let* present := Py.has param_key params in
                if present
                then let* v := Py.item params param_key in Ret (fst kv, v)
                else Ret kv
              else Ret kv
          | _ => Ret kv
          end in
        let* filled :=
          (fix go (l : list (string * json)) : outcome (list (string * json)) :=
             match l with
             | [] => Ret []
             | kv :: r => let* kv' := fill kv in let* r' := go r in Ret (kv' :: r')
             end) f in
        Ret (JObj filled)
    | JArr _ => Py.no_attribute template "items"
    | _ => Py.no_attribute template "copy"
    end
  else Ret params.

Definition status_error (endpoint method : json) (r : http_response) (response_text : string)
  : json :=
  JObj [("endpoint", endpoint); ("method", method);
        ("error", JStr ("API returned status " +:+ Py.str_of_Z (status r)));
        ("response_text", JStr (Py.slice_to 1000 response_text));
        ("timestamp", timestamp); ("status", JStr "error")].

Definition image_result (endpoint method image_url st : json) : json :=
  JObj [("endpoint", endpoint); ("method", method);
        ("response",
         JObj [("image_url", image_url); ("status", st);
               ("description", JStr "Here's a random dog picture!")]);
        ("timestamp", timestamp); ("status", JStr "success");
        ("response_type", JStr "image")].

(** The GET branch. *)
Definition api_get (endpoint method url headers : json) : M json :=
  do r <- request "GET" url headers None;
  do response_text <- lift (text r);
  if (status r =? 200)%Z
  then
    match json_loads W response_text with
    | Hang => lift Hang
    | Exc e =>
        match exn_kind e with
        | JSONDecodeError =>
            ret (JObj [("endpoint", endpoint); ("method", method);
                       ("error", JStr ("Invalid JSON response: " +:+ exn_msg e));
                       ("response_text", JStr (Py.slice_to 1000 response_text));
                       ("timestamp", timestamp); ("status", JStr "error")])
        | _ => raise e
        end
    | Ret payload =>
        do image <- lift (if Py.eq_str endpoint "dog" then Py.has "message" payload
                          else Ret false);
        if image
        then
          do image_url <- lift (Py.item payload "message");
          do st <- lift (Py.get payload "status" (JStr "success"));
          ret (image_result endpoint method image_url st)
        else ret (api_success endpoint method payload)
    end
  else ret (status_error endpoint method r response_text).

(** The POST branch; [None] when the block ends without a [return]. *)
Definition api_post (endpoint method api params url headers : json) : M (option json) :=
  do body <- lift (build_body api params);
  do r <- request "POST" url headers (Some body);
  if (status r =? 200)%Z
  then do payload <- lift (body_json r);
       ret (Some (api_success endpoint method payload))
  else ret None.

Definition call_api (endpoint method params : json) : M json :=
  let params := if Py.is_dict params then params else JObj [] in
  do config <- read api_config;
  do found <- lift (let* endpoints := Py.get config "endpoints" (JArr []) in
                    let* apis := Py.iter endpoints in
                    find_api endpoint apis);
  match found with
  | None => call_api_legacy endpoint method params
  | Some api =>
      if negb (Py.truthy api) then call_api_legacy endpoint method params
      else if Py.eq_str endpoint "amadeus_flight_search"
      then
        do client <- read amadeus_client;
        (if negb client
         then
           do client_id <- lift (Py.get api "client_id" (JStr ""));
           do client_secret <- lift (Py.get api "client_secret" (JStr ""));
           if Py.truthy client_id && Py.truthy client_secret
           then
             do made <- initialize_amadeus client_id client_secret;
             modify (fun p => set_amadeus made (amadeus_credentials p) p) ;;
             do handler <- read flight_handler;
             if negb handler
             then modify (set_flight_handler (flight_handler_ok W client_id client_secret))
             else ret tt
           else ret tt
         else ret tt) ;;
        search_flights params
      else
        do returned <-
          try_except
            (do req <- lift (build_request endpoint api params);
             let url := fst req in
             let headers := snd req in
             do verb <- lift (py_upper method);
             if String.eqb verb "GET"
             then do result <- api_get endpoint method url headers; ret (Some result)
             else if String.eqb verb "POST"
             then api_post endpoint method api params url headers
             else ret None)
            (fun e => ret (Some (api_error endpoint method (exn_msg e))));
        match returned with
        | Some result => ret result
        | None => call_api_legacy endpoint method params
        end
  end.

(* ================================================================= *)
(** ** Function-call dispatch *)

(** [send_to_client] *)
Definition send_to_client (session_id : string) (message : json) : M unit :=
  do clients <- read client_connections;
  match clients !! session_id with
  | Some client_ws =>
      do gone <- read disconnected;
      if bool_decide (client_ws ∈ gone) then ret tt
      else emit (ClientSend client_ws message)
  | None => ret tt
  end.

Definition response_create : json := JObj [("type", JStr "response.create")].

Definition function_call_output (call_id : json) (output : string) : json :=
  JObj [("type", JStr "conversation.item.create");
        ("item", JObj [("type", JStr "function_call_output");
                       ("call_id", call_id);
                       ("output", JStr output)])].

(** The envelope handed to the model for an image. *)
Definition image_envelope (endpoint image_url description seen : json) : json :=
  JObj [("type", JStr "image");
        ("url", image_url);
        ("description", description);
        ("note", JStr ("I've retrieved an image from " +:+ py_str endpoint
                       +:+ ". The image shows: " +:+ py_str seen
                       +:+ ". The image URL is: " +:+ py_str image_url))].

(** The [call_external_api] branch after [call_api] has returned: the value
    bound to [result] and the one bound to [result_output]. *)
Definition shape_api_result (arguments result : json) : outcome (json * json) :=
  let result :=
    match result with
    | JStr s => match json_loads W s with
                | Ret v => v
                | _ => JObj [("response", result)]
                end
    | _ => result
    end in
  let* is_image :=
    if Py.is_dict result
    then
      let* response_type := Py.get_opt result "response_type" in
      if Py.eq_str response_type "image"
      then
        let* response := Py.get result "response" (JObj []) in
        let* image_url := Py.get_opt response "image_url" in
        Ret (Py.truthy image_url)
      else Ret false
    else Ret false in
  if is_image
  then
    let* response := Py.item result "response" in
    let* image_url := Py.item response "image_url" in
    let* description := Py.get response "description" (JStr "Image retrieved successfully") in
    let* endpoint := Py.get_opt arguments "endpoint" in
    let* seen := Py.get response "description" (JStr "A picture") in
    Ret (result, image_envelope endpoint image_url description seen)
  else Ret (result, result).

(** The [if/elif/else] on the function name: the value of [result] and, when
    the branch binds it, the value of [result_output]. *)
Definition run_capability (function_name arguments : json) : M (json * option json) :=
  if Py.eq_str function_name "search_knowledge_base"
  then
    do query <- lift (Py.get arguments "query" (JStr ""));
    do top_k <- lift (Py.get arguments "top_k" (JNum 5));
    do result <- search_rag query top_k;
    do _ <- lift (Py.get result "count" (JNum 0));
    ret (result, None)
  else if Py.eq_str function_name "execute_workflow"
  then
    do workflow_type <- lift (Py.get_opt arguments "workflow_type");
    do parameters <- lift (Py.get arguments "parameters" (JObj []));
    do result <- execute_workflow workflow_type parameters;
    ret (result, None)
  else if Py.eq_str function_name "call_external_api"
  then
    do endpoint <- lift (Py.get_opt arguments "endpoint");
    do method <- lift (Py.get arguments "method" (JStr "GET"));
    do params <- lift (Py.get arguments "params" (JObj []));
    do result <- call_api endpoint method params;
    do shaped <- lift (shape_api_result arguments result);
    ret (fst shaped, Some (snd shaped))
  else ret (JObj [], Some (JObj [])).

Definition unbound_result_output : exn :=
  mkExn UnboundLocalError
    "cannot access local variable 'result_output' where it is not associated with a value".

Definition handle_function_call (function_name arguments : json) (session_id : string)
    (call_id : json) : M json :=
  emit (Executing function_name arguments) ;;
  try_except
    (do bound <- run_capability function_name arguments;
     let result := fst bound in
     match snd bound with
     | None => raise unbound_result_output
     | Some result_output =>
         let function_response :=
           function_call_output
             (if Py.truthy call_id then call_id else JStr (uuid4 W))
             (json_dumps W result_output) in
         do upstream <- read openai_ws;
         match upstream with
         | Some ws =>
             emit (UpstreamSend ws function_response) ;;
             emit (UpstreamSend ws response_create)
         | None => ret tt
         end ;;
         send_to_client session_id
           (JObj [("type", JStr "function.result");
                  ("function", function_name);
                  ("result", result)]) ;;
         ret result
     end)
    (fun e => ret (JObj [("error", JStr (exn_msg e))])).

(* ================================================================= *)
(** ** The upstream controller *)

Definition upstream_send (message : json) : M unit :=
  do upstream <- read openai_ws;
  match upstream with
  | Some ws => emit (UpstreamSend ws message)
  | None => lift (Py.no_attribute JNull "send")
  end.

(** [get_api_instructions] *)
Fixpoint api_lines (apis : list json) (instructions : string) : outcome string :=
  match apis with
  | [] => Ret instructions
  | api :: rest =>
      let* active := Py.get api "active" (JBool true) in
      if Py.truthy active
      then
        let* id := Py.item api "id" in
        let* description := Py.item api "description" in
        let line := "   - " +:+ py_str id +:+ ": " +:+ py_str description +:+ Py.newline in
        let* example := Py.get_opt api "example" in
        let* more :=
          if Py.truthy example
          then let* ex := Py.item api "example" in
               Ret ("     Example: " +:+ Py.quoted (py_str ex) +:+ Py.newline)
          else Ret "" in
        api_lines rest (instructions +:+ line +:+ more)
      else api_lines rest instructions
  end.

Definition get_api_instructions : M string :=
  do config <- read api_config;
  do endpoints <- lift (Py.get_opt config "endpoints");
  if negb (Py.truthy endpoints) then ret ""
  else
    do apis <- lift (Py.iter endpoints);
    lift (api_lines apis (Py.newline +:+ Py.newline +:+ "Configured API endpoints:" +:+ Py.newline)).

(** [get_valid_endpoints] *)
Fixpoint valid_ids (apis : list json) : outcome (list json) :=
  match apis with
  | [] => Ret []
  | api :: rest =>
      let* active := Py.get api "active" (JBool true) in
      if Py.truthy active
      then let* id := Py.item api "id" in
           let* ids := valid_ids rest in Ret (id :: ids)
      else valid_ids rest
  end.

Definition get_valid_endpoints : M (list json) :=
  do config <- read api_config;
  do endpoints <- lift (Py.get config "endpoints" (JArr []));
  do apis <- lift (Py.iter endpoints);
  lift (valid_ids apis).

(** The voice-activity detection block of the session configuration. *)
Definition turn_detection : json :=
  JObj [("type", JStr "server_vad");
        ("threshold", JReal 3 10);
        ("prefix_padding_ms", JNum 500);
        ("silence_duration_ms", JNum 600);
        ("create_response", JBool true)].

Definition session_update (instructions : string) (voice temperature tools : json) : json :=
  JObj [("type", JStr "session.update");
        ("session",
         JObj [("modalities", JArr [JStr "text"; JStr "audio"]);
               ("instructions", JStr instructions);
               ("voice", voice);
               ("input_audio_format", JStr "pcm16");
               ("output_audio_format", JStr "pcm16");
               ("temperature", temperature);
               ("input_audio_transcription", JObj [("model", JStr "whisper-1")]);
               ("turn_detection", turn_detection);
               ("tools", tools);
               ("tool_choice", JStr "auto")])].

Definition configure_openai_session (voice temperature custom_instructions : json) : M unit :=
  let selected_voice := if Py.truthy voice then voice else JStr "alloy" in
  let selected_temp := match temperature with JNull => JReal 7 10 | t => t end in
  do api_instructions <- get_api_instructions;
  let base := base_instructions W api_instructions in
  let base :=
    if Py.truthy custom_instructions
    then base +:+ Py.newline +:+ Py.newline +:+ "Additional instructions: "
         +:+ py_str custom_instructions
    else base +:+ " Speak at a normal, comfortable pace." in
  let base := base +:+ " Always explain what you're doing when using functions." in
  do ids <- get_valid_endpoints;
  let session_config :=
    session_update base selected_voice selected_temp (function_definitions W ids) in
  try_except (upstream_send session_config) (fun _ => ret tt).

(** [connect_to_openai]; [connection] is what [websockets.connect] ends in. *)
Definition connect_to_openai (connection : outcome nat) : M bool :=
  try_except
    (do key <- read api_key;
     match key with
     | None | Some EmptyString => ret false
     | Some _ =>
         do ws <- lift connection;
         modify (set_openai_ws (Some ws)) ;;
         configure_openai_session JNull JNull JNull ;;
         ret true
     end)
    (fun _ => ret false).

Definition audio_append (audio : json) : json :=
  JObj [("type", JStr "input_audio_buffer.append"); ("audio", audio)].

Definition audio_commit : json := JObj [("type", JStr "input_audio_buffer.commit")].

Definition audio_clear : json := JObj [("type", JStr "input_audio_buffer.clear")].

(** [forward_audio_to_openai] *)
Definition forward_audio_to_openai (audio_base64 audio_format : json) (session_id : string)
  : M unit :=
  do upstream <- read openai_ws;
  match upstream with
  | None => ret tt
  | Some _ =>
      try_except
        (if Py.eq_str audio_format "webm"
         then
           send_to_client session_id
             (JObj [("type", JStr "audio_format_error");
                    ("message", JStr "Please use PCM16 audio format at 24kHz")])
         else if Py.eq_str audio_format "pcm16" || negb (Py.truthy audio_format)
         then
           upstream_send (audio_append audio_base64) ;;
           upstream_send audio_commit
         else ret tt)
        (fun e =>
           if String.eqb session_id "" then ret tt
           else send_to_client session_id
                  (JObj [("type", JStr "error");
                         ("error", JStr ("Audio processing error: " +:+ exn_msg e))]))
  end.

Definition text_item (text : json) : json :=
  JObj [("type", JStr "conversation.item.create");
        ("item", JObj [("type", JStr "message");
                       ("role", JStr "user");
                       ("content", JArr [JObj [("type", JStr "input_text");
                                               ("text", text)]])])].

(** [send_text_to_openai] *)
Definition send_text_to_openai (text : json) : M unit :=
  do upstream <- read openai_ws;
  match upstream with
  | None => ret tt
  | Some _ => upstream_send (text_item text) ;; upstream_send response_create
  end.

(** [handle_client_message] *)
Definition handle_client_message (session_id : string) (message : json) : M unit :=
  do msg_type <- lift (Py.get_opt message "type");
  if Py.eq_str msg_type "audio.input" then
    do audio <- lift (Py.get_opt message "audio");
    do format <- lift (Py.get_opt message "format");
    forward_audio_to_openai audio format session_id
  else if Py.eq_str msg_type "text.input" then
    do text <- lift (Py.get_opt message "text");
    send_text_to_openai text
  else if Py.eq_str msg_type "rag.index" then
    do file_id <- lift (Py.get_opt message "fileId");
    do content <- lift (Py.get_opt message "content");
    emit (IndexDocument file_id content)
  else if Py.eq_str msg_type "session.config" then
    do config <- lift (Py.get message "config" (JObj []));
    do enable <- lift (Py.get_opt config "enableFunctions");
    if Py.truthy enable then configure_openai_session JNull JNull JNull else ret tt
  else if Py.eq_str msg_type "update_settings" then
    do settings <- lift (Py.get message "settings" (JObj []));
    do upstream <- read openai_ws;
    match upstream with
    | None => ret tt
    | Some _ =>
        try_except
          (do selected_voice <- lift (Py.get settings "voice" (JStr "alloy"));
           do temperature <- lift (Py.get_opt settings "temperature");
           let selected_temp := match temperature with JNull => JReal 7 10 | t => t end in
           do custom_instructions <- lift (Py.get settings "instructions" (JStr ""));
           do api_instructions <- get_api_instructions;
           let base := settings_instructions W api_instructions in
           let base :=
             if Py.truthy custom_instructions
             then base +:+ Py.newline +:+ Py.newline +:+ "Additional instructions: "
                  +:+ py_str custom_instructions
             else base in
           upstream_send
             (JObj [("type", JStr "session.update");
                    ("session", JObj [("voice", selected_voice);
                                      ("instructions", JStr base);
                                      ("temperature", selected_temp)])]) ;;
           send_to_client session_id
             (JObj [("type", JStr "settings_updated"); ("settings", settings)]))
          (fun _ => ret tt)
    end
  else if Py.eq_str msg_type "reset_audio_state" then
    do upstream <- read openai_ws;
    match upstream with
    | None => ret tt
    | Some _ => upstream_send audio_clear
    end
  else if Py.eq_str msg_type "recording_stopped" then
    do upstream <- read openai_ws;
    match upstream with
    | None => ret tt
    | Some _ => upstream_send audio_commit
    end
  else ret tt.

(* ================================================================= *)
(** ** The upstream-to-client pump: [handle_openai_messages] *)

(** The two locals of the coroutine. *)
Record pump_state := mkPump {
  last_user_transcript : json;
  pending_user_transcript : bool
}.

Definition pump_start : pump_state := mkPump (JStr "") false.

Definition send_json (websocket : nat) (message : json) : M unit :=
  emit (ClientSend websocket message).

Definition transcription_complete (text : json) (role : string) : json :=
  JObj [("type", JStr "transcription.complete"); ("text", text); ("role", JStr role)].

(** The guarded block shared by [response.audio_transcript.delta] and
    [response.created]: the pending user transcript goes out and the flag
    is cleared. *)
Definition flush_pending (websocket : nat) (st : pump_state) : M pump_state :=
  if pending_user_transcript st && Py.truthy (last_user_transcript st)
  then
    send_json websocket (transcription_complete (last_user_transcript st) "user") ;;
    ret (mkPump (last_user_transcript st) false)
  else ret st.

(** The first [input_audio] part that carries a transcript. *)
Fixpoint audio_transcript (content : list json) : outcome (option json) :=
  match content with
  | [] => Ret None
  | c :: rest =>
      let* type := Py.get_opt c "type" in
      if Py.eq_str type "input_audio"
      then
        let* t := Py.get_opt c "transcript" in
        if Py.truthy t then Ret (Some t) else audio_transcript rest
      else audio_transcript rest
  end.

(** [v > 0] *)
Definition py_positive (v : json) : outcome bool :=
  match v with
  | JNum n => Ret (0 <? n)%Z
  | JBool b => Ret b
  | JReal p _ => Ret (0 <? p)%Z
  | _ => Exc (mkExn TypeError
                ("'>' not supported between instances of '" +:+ Py.typename v +:+ "' and 'int'"))
  end.

(** One turn of the [async for] loop, after the frame has been decoded. *)
Definition handle_event (websocket : nat) (session_id : string) (event : json)
    (st : pump_state) : M pump_state :=
  do event_type <- lift (Py.get_opt event "type");
  let on t := Py.eq_str event_type t in
  if on "response.text.delta" then
    do delta <- lift (Py.get event "delta" (JStr ""));
    send_json websocket (JObj [("type", JStr "text.response"); ("text", delta)]) ;;
    ret st
  else if on "response.audio.delta" then
    do delta <- lift (Py.get event "delta" (JStr ""));
    send_json websocket (JObj [("type", JStr "audio.response"); ("audio", delta)]) ;;
    ret st
  else if on "response.audio_transcript.delta" then
    do st <- flush_pending websocket st;
    do delta <- lift (Py.get event "delta" (JStr ""));
    send_json websocket
      (JObj [("type", JStr "transcription"); ("text", delta); ("role", JStr "assistant")]) ;;
    ret st
  else if on "response.audio_transcript.done" then
    do transcript <- lift (Py.get event "transcript" (JStr ""));
    (if Py.truthy transcript
     then send_json websocket (transcription_complete transcript "assistant")
     else ret tt) ;;
    ret st
  else if on "response.created" then
    do st <- flush_pending websocket st;
    do response_data <- lift (Py.get event "response" (JObj []));
    (if Py.truthy response_data
     then
       do output_items <- lift (Py.get response_data "output" (JArr []));
       do _ <- lift (Py.iter output_items);
       do _ <- lift (Py.get_opt response_data "status");
       ret tt
     else ret tt) ;;
    ret st
  else if on "response.done" then
    do response <- lift (Py.get event "response" (JObj []));
    (if Py.truthy response
     then
       do usage <- lift (Py.get response "usage" (JObj []));
       (if Py.truthy usage
        then
          do input_tokens <- lift (Py.get usage "input_tokens" (JNum 0));
          do _ <- lift (py_positive input_tokens);
          ret tt
        else ret tt) ;;
       do output_items <- lift (Py.get response "output" (JArr []));
       do _ <- lift (Py.iter output_items);
       ret tt
     else ret tt) ;;
    send_json websocket (JObj [("type", JStr "response.done")]) ;;
    ret st
  else if on "response.content_part.done" then
    do part <- lift (Py.get event "part" (JObj []));
    do type <- lift (Py.get_opt part "type");
    (if Py.eq_str type "audio"
     then send_json websocket (JObj [("type", JStr "audio.done")])
     else ret tt) ;;
    ret st
  else if on "conversation.item.input_audio_transcription.completed" then
    do item <- lift (Py.get event "item" (JObj []));
    do content <- lift (Py.get item "content" (JArr []));
    do parts <- lift (Py.iter content);
    do found <- lift (audio_transcript parts);
    do transcript <-
      match found with
      | Some t => ret t
      | None => lift (Py.get event "transcript" (JStr ""))
      end;
    (if Py.truthy transcript
     then send_json websocket (transcription_complete transcript "user")
     else ret tt) ;;
    ret st
  else if on "conversation.item.created" then
    do item <- lift (Py.get event "item" (JObj []));
    do role <- lift (Py.get_opt item "role");
    (if Py.eq_str role "user"
     then
       do content <- lift (Py.get item "content" (JArr []));
       do parts <- lift (Py.iter content);
       do found <- lift (audio_transcript parts);
       match found with
       | Some transcript => send_json websocket (transcription_complete transcript "user")
       | None => ret tt
       end
     else ret tt) ;;
    ret st
  else if on "conversation.item.input_audio_transcription.partial" then
    do partial_transcript <- lift (Py.get event "transcript" (JStr ""));
    if Py.truthy partial_transcript
    then
      send_json websocket
        (JObj [("type", JStr "transcription.partial");
               ("text", partial_transcript);
               ("role", JStr "user")]) ;;
      ret (mkPump partial_transcript true)
    else ret st
  else if on "response.function_call_arguments.done" then
    do function_name <- lift (Py.get_opt event "name");
    do call_id <- lift (Py.get_opt event "call_id");
    do encoded <- lift (Py.get event "arguments" (JStr "{}"));
    do arguments <- lift (match encoded with
                          | JStr s => json_loads W s
                          | _ => Exc (mkExn TypeError
                                        ("the JSON object must be str, bytes or bytearray, not "
                                         +:+ Py.typename encoded))
                          end);
    send_json websocket
      (JObj [("type", JStr "function_call");
             ("name", function_name);
             ("arguments", arguments)]) ;;
    do _ <- handle_function_call function_name arguments session_id call_id;
    ret st
  else if on "response.output_item.added" then
    do item <- lift (Py.get event "item" (JObj []));
    do type <- lift (Py.get_opt item "type");
    (if Py.eq_str type "function_call"
     then do _ <- lift (Py.get_opt item "name"); ret tt
     else ret tt) ;;
    ret st
  else if on "response.function_call_arguments.delta" then
    ret st
  else if on "input_audio_buffer.speech_started" then
    send_json websocket (JObj [("type", JStr "speech_started")]) ;;
    ret st
  else if on "input_audio_buffer.speech_stopped" then
    let st := if Py.truthy (last_user_transcript st)
              then mkPump (last_user_transcript st) true else st in
    send_json websocket (JObj [("type", JStr "speech_stopped")]) ;;
    ret st
  else if on "conversation.item.truncated" then
    send_json websocket (JObj [("type", JStr "response_interrupted")]) ;;
    ret st
  else if on "response.cancelled" then
    send_json websocket (JObj [("type", JStr "response_cancelled")]) ;;
    ret st
  else if on "error" then
    do error <- lift (Py.get event "error" (JObj []));
    do error_msg <- lift (Py.get error "message" (JStr "Unknown error"));
    do lowered <- lift (py_lower error_msg);
    (if Py.contains "critical" lowered || Py.contains "failed" lowered
     then send_json websocket
            (JObj [("type", JStr "error"); ("error", error_msg); ("internal", JBool true)])
     else ret tt) ;;
    ret st
  else ret st.

(** The events of the loop, one after the other. *)
Fixpoint handle_events (websocket : nat) (session_id : string) (events : list json)
    (st : pump_state) : M pump_state :=
  match events with
  | [] => ret st
  | event :: rest =>
      do st' <- handle_event websocket session_id event st;
      handle_events websocket session_id rest st'
  end.

(** The loop over the frames of the upstream socket. *)
Fixpoint pump_frames (websocket : nat) (session_id : string) (frames : list string)
    (st : pump_state) : M pump_state :=
  match frames with
  | [] => ret st
  | message :: rest =>
      do event <- lift (json_loads W message);
      do st' <- handle_event websocket session_id event st;
      pump_frames websocket session_id rest st'
  end.

(** [handle_openai_messages] over the frames the upstream sends until its
    socket closes: any exception ends the loop and is logged. *)
Definition handle_openai_messages (websocket : nat) (session_id : string)
    (frames : list string) : M unit :=
  try_except
    (do _ <- pump_frames websocket session_id frames pump_start; ret tt)
    (fun _ => ret tt).

(** [handle_client_messages] over the text frames the client sends before it
    disconnects; the disconnect is the exception that ends the loop. *)
Fixpoint client_frames (session_id : string) (frames : list string) : M unit :=
  match frames with
  | [] => raise (mkExn OtherError "WebSocketDisconnect")
  | text :: rest =>
      do message <- lift (json_loads W text);
      handle_client_message session_id message ;;
      client_frames session_id rest
  end.

Definition handle_client_messages (session_id : string) (frames : list string) : M unit :=
  try_except (client_frames session_id frames) (fun _ => ret tt).

(* ================================================================= *)
(** ** The websocket endpoint [/ws] *)

(** Up to the call of [connect_to_openai]: the client socket is accepted and
    registered under a fresh session id. *)
Definition endpoint_accept (websocket : nat) (session_id : string) : M unit :=
  modify (fun p =>
    set_client_connections (<[session_id := websocket]> (client_connections p)) p).

(** From the answer of [connect_to_openai] to the creation of the two pumps,
    or to the [else] branch. *)
Definition endpoint_connect (websocket : nat) (session_id : string)
    (connection : outcome nat) : M bool :=
  do connected <- connect_to_openai connection;
  if connected
  then
    send_json websocket
      (JObj [("type", JStr "connected"); ("session_id", JStr session_id)]) ;;
    ret true
  else
    send_json websocket
      (JObj [("type", JStr "error"); ("error", JStr "Failed to connect to OpenAI")]) ;;
    emit (ClientClose websocket) ;;
    ret false.

(** The [finally] block, entered once [asyncio.gather] is over. *)
Definition endpoint_finally (session_id : string) : M unit :=
  do upstream <- read openai_ws;
  match upstream with
  | Some ws => emit (UpstreamClose ws)
  | None => ret tt
  end ;;
  do clients <- read client_connections;
  match clients !! session_id with
  | Some _ =>
      modify (fun p =>
        set_client_connections (delete session_id (client_connections p)) p)
  | None => raise (mkExn KeyError ("'" +:+ session_id +:+ "'"))
  end.

End WithWorld.

(** *** Sessions over one process *)

(** Where the coroutine [websocket_endpoint] of a session stands. *)
Inductive phase := CONNECTING | ACTIVE | CLOSING | CLOSED.

Record session := mkSession {
  client_transport : nat;
  session_phase : phase;
  client_pump : bool;                    (* [handle_client_messages] still runs *)
  upstream_pump : option pump_state      (* locals of [handle_openai_messages] *)
}.

(** The process: the one global [proxy] and the coroutines of the sessions. *)
Record server := mkServer {
  the_proxy : proxy;
  sessions : gmap string session
}.

(** What the event loop runs next. *)
Inductive moment :=
| Accept (websocket : nat) (session_id : string)
| Handshake (session_id : string) (connection : outcome nat)
| ClientText (session_id : string) (message : json)
| ClientGone (session_id : string)
| UpstreamEvent (session_id : string) (event : json)
| UpstreamEnd (session_id : string)
| Teardown (session_id : string).

Definition phase_eqb (a b : phase) : bool :=
  match a, b with
  | CONNECTING, CONNECTING | ACTIVE, ACTIVE | CLOSING, CLOSING | CLOSED, CLOSED => true
  | _, _ => false
  end.

Definition after_pumps (s : session) : session :=
  match client_pump s, upstream_pump s with
  | false, None => mkSession (client_transport s) CLOSING false None
  | _, _ => s
  end.

Definition in_phase (srv : server) (session_id : string) (ph : phase) : option session :=
  match sessions srv !! session_id with
  | Some s => if phase_eqb (session_phase s) ph then Some s else None
  | None => None
  end.

Definition step (W : World) (srv : server) (m : moment) : server :=
  let p := the_proxy srv in
  match m with
  | Accept websocket session_id =>
      mkServer (snd (endpoint_accept websocket session_id p))
        (<[session_id := mkSession websocket CONNECTING false None]> (sessions srv))
  | Handshake session_id connection =>
      match in_phase srv session_id CONNECTING with
      | Some s =>
          let r := endpoint_connect W (client_transport s) session_id connection p in
          mkServer (snd r)
            (<[session_id :=
                 match fst r with
                 | Ret true => mkSession (client_transport s) ACTIVE true (Some pump_start)
                 | _ => mkSession (client_transport s) CLOSED false None
                 end]> (sessions srv))
      | None => srv
      end
  | ClientText session_id message =>
      match in_phase srv session_id ACTIVE with
      | Some s =>
          if client_pump s
          then
            let r := handle_client_message W session_id message p in
            mkServer (snd r)
              (<[session_id :=
                   match fst r with
                   | Ret _ => s
                   | _ => after_pumps (mkSession (client_transport s) ACTIVE false
                                         (upstream_pump s))
                   end]> (sessions srv))
          else srv
      | None => srv
      end
  | ClientGone session_id =>
      match in_phase srv session_id ACTIVE with
      | Some s =>
          mkServer
            (mkProxy (api_key p) (openai_ws p) (client_connections p)
               ({[client_transport s]} ∪ disconnected p) (rag_store p) (api_config p)
               (amadeus_client p) (amadeus_credentials p) (flight_handler p) (trace p))
            (<[session_id :=
                 after_pumps (mkSession (client_transport s) ACTIVE false (upstream_pump s))]>
               (sessions srv))
      | None => srv
      end
  | UpstreamEvent session_id event =>
      match in_phase srv session_id ACTIVE with
      | Some s =>
          match upstream_pump s with
          | Some st =>
              let r := handle_event W (client_transport s) session_id event st p in
              mkServer (snd r)
                (<[session_id :=
                     match fst r with
                     | Ret st' => mkSession (client_transport s) ACTIVE (client_pump s) (Some st')
                     | _ => after_pumps (mkSession (client_transport s) ACTIVE (client_pump s)
                                           None)
                     end]> (sessions srv))
          | None => srv
          end
      | None => srv
      end
  | UpstreamEnd session_id =>
      match in_phase srv session_id ACTIVE with
      | Some s =>
          mkServer p
            (<[session_id :=
                 after_pumps (mkSession (client_transport s) ACTIVE (client_pump s) None)]>
               (sessions srv))
      | None => srv
      end
  | Teardown session_id =>
      match in_phase srv session_id CLOSING with
      | Some s =>
          mkServer (snd (endpoint_finally session_id p))
            (<[session_id := mkSession (client_transport s) CLOSED false None]> (sessions srv))
      | None => srv
      end
  end.

Definition run (W : World) (srv : server) (schedule : list moment) : server :=
  fold_left (step W) schedule srv.

(** The upstream transport a session talks through: the proxy has one
    attribute for it, read by every session at the time of use. *)
Definition upstream_transport (srv : server) (session_id : string) : option nat :=
  match sessions srv !! session_id with
  | Some _ => openai_ws (the_proxy srv)
  | None => None
  end.

Definition phase_of (srv : server) (session_id : string) : option phase :=
  session_phase <$> sessions srv !! session_id.

(* ================================================================= *)
(** ** The demo server: [RealtimeAPIOrchestrator] of [realtime_demo_server.py] *)

Module Orchestrator.

(** The attributes the dispatch reads. *)
Record orchestrator := mkOrchestrator {
  openai_ws : option nat;
  client_ws : option nat;
  knowledge_base : list (string * string);
  trace : list effect
}.

Definition emit (e : effect) : State orchestrator unit :=
  fun o => (Ret tt, mkOrchestrator (openai_ws o) (client_ws o) (knowledge_base o)
                      (trace o ++ [e])).

Section WithWorld.
Context (W : World).

(** [self.http_client.get(url, headers=..., timeout=5.0)]: httpx raises when
    the five seconds are over. *)
Definition http_get (url : string) (headers : json) : State orchestrator http_response :=
  emit (HttpRequest "GET" (JStr url) headers None) ;;
  lift (wait_for (http_request W "GET" (JStr url) headers None)).

(** A branch of [execute_function]: [Some] when the branch returns. *)
Definition on_200 (url : string) (headers : json) (shape : json -> outcome json)
  : State orchestrator (option json) :=
  do response <- http_get url headers;
  if (status response =? 200)%Z
  then
    do payload <- lift (body_json response);
    do result <- lift (shape payload);
    ret (Some result)
  else ret None.

Definition weather_shape (payload : json) : outcome json :=
  let* cc := Py.get payload "current_condition" (JArr [JObj []]) in
  let* current := py_first cc in
  let* temp_C := Py.get current "temp_C" (JStr "unknown") in
  let* desc := Py.get current "weatherDesc" (JArr [JObj [("value", JStr "unknown")]]) in
  let* desc0 := py_first desc in
  let* description := Py.item desc0 "value" in
  let* humidity := Py.get current "humidity" (JStr "unknown") in
  let* wind := Py.get current "windspeedKmph" (JStr "unknown") in
  Ret (JObj [("temperature", JStr (py_str W temp_C +:+ "°C"));
             ("description", description);
             ("humidity", JStr (py_str W humidity +:+ "%"));
             ("wind", JStr (py_str W wind +:+ " km/h"))]).

Definition one_field (name key : string) (default : string) (payload : json) : outcome json :=
  let* v := Py.get payload key (JStr default) in Ret (JObj [(name, v)]).

Definition quote_shape (payload : json) : outcome json :=
  let* quote := Py.get payload "content" (JStr "Believe in yourself!") in
  let* author := Py.get payload "author" (JStr "Unknown") in
  Ret (JObj [("quote", quote); ("author", author)]).

Definition activity_shape (payload : json) : outcome json :=
  let* activity := Py.get payload "activity" (JStr "Take a walk") in
  let* type := Py.get payload "type" (JStr "relaxation") in
  let* participants := Py.get payload "participants" (JNum 1) in
  Ret (JObj [("activity", activity); ("type", type); ("participants", participants)]).

(** The texts of the knowledge base that contain the lowercased query. *)
Definition matching (query : string) (kb : list (string * string)) : list json :=
  map (fun kv => JStr (snd kv))
    (List.filter (fun kv => Py.contains query (Py.lower (snd kv))) kb).

Definition accept_json : json := JObj [("Accept", JStr "application/json")].

(** The [if/elif] chain of [execute_function]; [None] when it is left
    without a [return]. *)
Definition function_branch (function_name arguments : json)
  : State orchestrator (option json) :=
  let named n := Py.eq_str function_name n in
  if named "get_weather" then
    do city <- lift (Py.get arguments "city" (JStr "London"));
    on_200 ("https://wttr.in/" +:+ py_str W city +:+ "?format=j1") JNull weather_shape
  else if named "get_joke" then
    on_200 "https://icanhazdadjoke.com/" accept_json
      (one_field "joke" "joke"
         "Why don't scientists trust atoms? Because they make up everything!")
  else if named "get_random_fact" then
    on_200 "https://uselessfacts.jsph.pl/api/v2/facts/random" JNull
      (one_field "fact" "text" "The Earth is round!")
  else if named "get_cat_fact" then
    on_200 "https://catfact.ninja/fact" JNull (one_field "fact" "fact" "Cats have 9 lives!")
  else if named "get_inspirational_quote" then
    on_200 "https://api.quotable.io/random" JNull quote_shape
  else if named "get_activity_suggestion" then
    on_200 "https://www.boredapi.com/api/activity" JNull activity_shape
  else if named "search_knowledge_base" then
    do q <- lift (Py.get arguments "query" (JStr ""));
    do query <- lift (py_lower q);
    do kb <- read knowledge_base;
    let results := matching query kb in
    ret (Some (JObj [("results",
                      JArr (match results with
                            | [] => [JStr "No information found in knowledge base"]
                            | _ => results
                            end))]))
  else ret None.

(** [execute_function] *)
Definition execute_function (function_name arguments : json) : State orchestrator json :=
  try_except
    (emit (Executing function_name arguments) ;;
     do returned <- function_branch function_name arguments;
     match returned with
     | Some result => ret result
     | None => ret (JObj [("error", JStr ("Unknown function: " +:+ py_str W function_name))])
     end)
    (fun e => ret (JObj [("error", JStr (exn_msg e))])).

Definition upstream_send (message : json) : State orchestrator unit :=
  do upstream <- read openai_ws;
  match upstream with
  | Some ws => emit (UpstreamSend ws message)
  | None => lift (Py.no_attribute JNull "send")
  end.

Definition client_send (message : json) : State orchestrator unit :=
  do client <- read client_ws;
  match client with
  | Some ws => emit (ClientSend ws message)
  | None => ret tt
  end.

(** The event types forwarded to the client as they are. *)
Definition forwarded_types : list string :=
  ["response.audio.delta"; "response.audio.done"; "response.text.delta";
   "response.text.done"; "response.audio_transcript.delta";
   "response.audio_transcript.done"; "session.created"; "session.updated";
   "conversation.item.input_audio_transcription.completed"; "response.done";
   "response.created"; "input_audio_buffer.speech_started";
   "input_audio_buffer.speech_stopped"].

(** One turn of the loop of [handle_openai_messages]. *)
Definition handle_event (event : json) : State orchestrator unit :=
  do event_type <- lift (Py.get_opt event "type");
  if Py.eq_str event_type "response.function_call_arguments.done" then
    do function_name <- lift (Py.get_opt event "name");
    do encoded <- lift (Py.get event "arguments" (JStr "{}"));
    do arguments <- lift (match encoded with
                          | JStr s => json_loads W s
                          | _ => Exc (mkExn TypeError
                                        ("the JSON object must be str, bytes or bytearray, not "
                                         +:+ Py.typename encoded))
                          end);
    do call_id <- lift (Py.get_opt event "call_id");
    do result <- execute_function function_name arguments;
    upstream_send (function_call_output call_id (json_dumps W result)) ;;
    upstream_send response_create ;;
    client_send (JObj [("type", JStr "function_call");
                       ("function", function_name);
                       ("parameters", arguments);
                       ("result", result)])
  else if existsb (Py.eq_str event_type) forwarded_types then
    client_send event
  else if Py.eq_str event_type "error" then
    client_send event
  else ret tt.

Fixpoint handle_events (events : list json) : State orchestrator unit :=
  match events with
  | [] => ret tt
  | event :: rest => handle_event event ;; handle_events rest
  end.

End WithWorld.

End Orchestrator.

(* ================================================================= *)
(** ** Observations on a run *)

(** A capability result is a failure when the dict carries an [error]. *)
Definition is_failure (result : json) : bool :=
  match result with
  | JObj f => match Py.lookup "error" f with Some _ => true | None => false end
  | _ => false
  end.

Definition field_of (result : json) (k : string) : option json :=
  match result with
  | JObj f => Py.lookup k f
  | _ => None
  end.

(** A dispatch: the record [handle_function_call] opens with. *)
Definition is_invocation (e : effect) : bool :=
  match e with
  | Executing _ _ => true
  | _ => false
  end.

(** A function-output item written to the upstream socket. *)
Definition is_function_output (e : effect) : bool :=
  match e with
  | UpstreamSend _ message =>
      match field_of message "item" with
      | Some item =>
          match field_of item "type" with
          | Some t => Py.eq_str t "function_call_output"
          | None => false
          end
      | None => false
      end
  | _ => false
  end.

(** A finalized user transcript written to a client socket. *)
Definition is_user_transcript (e : effect) : bool :=
  match e with
  | ClientSend _ message =>
      match field_of message "type", field_of message "role" with
      | Some t, Some r => Py.eq_str t "transcription.complete" && Py.eq_str r "user"
      | _, _ => false
      end
  | _ => false
  end.

(** What a capability provider may do to the outside. *)
Definition is_provider_effect (e : effect) : bool :=
  match e with
  | SimilaritySearch _ _ | HttpRequest _ _ _ _ | FlightOffersSearch _
  | EnhancedFlightSearch _ | Sleep => true
  | _ => false
  end.

Definition count (f : effect -> bool) (l : list effect) : nat :=
  length (List.filter f l).

(** The offers listed by a flight-search result. *)
Definition flights_of (result : json) : option (list json) :=
  match field_of result "response" with
  | Some response =>
      match field_of response "flights" with
      | Some (JArr flights) => Some flights
      | _ => None
      end
  | None => None
  end.

(** The keyword-reduced query of the second search. *)
Definition keyword_query (query : string) : string :=
  Py.join " " (take 3 (Py.split (Py.lower query))).

(** A document whose metadata is as [index_document] writes it: a dict with a
    string under [filename] and an integer under [chunk_index], when
    present. *)
Definition indexed (doc : Document) : bool :=
  match metadata doc with
  | JObj f =>
      match Py.lookup "filename" f with
      | Some (JStr _) | None => true
      | Some _ => false
      end
      && match Py.lookup "chunk_index" f with
         | Some (JNum _) | None => true
         | Some _ => false
         end
  | _ => false
  end.

Definition all_strings (l : list json) : bool := forallb Py.is_str l.

Definition known_workflow (k : string) : bool :=
  existsb (String.eqb k)
    ["customer_onboarding"; "support_ticket"; "order_processing"; "data_analysis"].

Definition is_failure_outcome (r : outcome json) : bool :=
  match r with
  | Ret result => is_failure result
  | _ => false
  end.

(** The event that completes the arguments of a function call. *)
Definition done_event (name call_id : json) (encoded : string) : json :=
  JObj [("type", JStr "response.function_call_arguments.done");
        ("name", name);
        ("call_id", call_id);
        ("arguments", JStr encoded)].

(** The notice the client gets when a function call is dispatched. *)
Definition function_call_notice (name arguments : json) : json :=
  JObj [("type", JStr "function_call"); ("name", name); ("arguments", arguments)].

(** The proxy once a dispatch has been announced and recorded. *)
Definition announced (websocket : nat) (name arguments : json) (p : proxy) : proxy :=
  set_trace (trace p ++ [ClientSend websocket (function_call_notice name arguments);
                         Executing name arguments]) p.

(** How many function outputs a dispatch started from [p] writes upstream:
    one when the capability returns with an output bound and the upstream
    socket is set. *)
Definition dispatch_sends (W : World) (name arguments : json) (p : proxy) : nat :=
  match fst (run_capability W name arguments p), openai_ws p with
  | Ret (_, Some _), Some _ => 1
  | _, _ => 0
  end.

(* ================================================================= *)
(** ** A concrete deployment *)

Module Scenario.

(** A serializer in the manner of [json.dumps], for texts without quotes or
    backslashes. *)
Fixpoint dumps (v : json) : string :=
  match v with
  | JNull => "null"
  | JBool true => "true"
  | JBool false => "false"
  | JNum n => Py.str_of_Z n
  | JReal p q => Py.str_of_Z p +:+ "/" +:+ Py.str_of_Z (Z.pos q)
  | JStr s => Py.quoted s
  | JArr l =>
      "[" +:+ Py.join ", " (map dumps l) +:+ "]"
  | JObj f =>
      "{" +:+ Py.join ", "
                ((fix entries (f : list (string * json)) : list string :=
                    match f with
                    | [] => []
                    | (k, x) :: r => (Py.quoted k +:+ ": " +:+ dumps x) :: entries r
                    end) f)
          +:+ "}"
  end.

Definition joke_body : string := "{joke}".
Definition image_body : string := "{message}".

(** The texts the decoder knows. *)
Definition loads (s : string) : outcome json :=
  if String.eqb s "{}" then Ret (JObj [])
  else if String.eqb s joke_body
  then Ret (JObj [("joke", JStr "Why did the scarecrow win an award?")])
  else if String.eqb s image_body
  then Ret (JObj [("message", JStr "http://x/img.png")])
  else if String.eqb s "{call:joke}"
  then Ret (JObj [("endpoint", JStr "joke")])
  else if String.eqb s "{call:dog}"
  then Ret (JObj [("endpoint", JStr "dog")])
  else if String.eqb s "{call:dog,POST}"
  then Ret (JObj [("endpoint", JStr "dog"); ("method", JStr "POST")])
  else Exc (mkExn JSONDecodeError "Expecting value: line 1 column 1 (char 0)").

(** The servers behind the endpoints: one answers with a joke, one with an
    image reference, one never answers, and every other one is down. *)
Definition http_server (method : string) (url : json) (headers : json) (body : option json)
  : outcome http_response :=
  if Py.eq_str url "https://jokes.test/random" || Py.eq_str url "https://icanhazdadjoke.com/"
  then Ret (mkResponse 200 (Ret joke_body) (loads joke_body))
  else if Py.eq_str url "https://dog.test/api/breeds/image/random"
  then Ret (mkResponse 200 (Ret image_body) (loads image_body))
  else if Py.eq_str url "https://slow.test/"
  then Hang
  else Ret (mkResponse 500 (Ret "Internal Server Error")
              (Exc (mkExn JSONDecodeError "Expecting value: line 1 column 1 (char 0)"))).

Definition offer (carrier : string) : json :=
  JObj [("price", JObj [("total", JStr "420.00"); ("currency", JStr "EUR")]);
        ("itineraries",
         JArr [JObj [("duration", JStr "PT7H");
                     ("segments",
                      JArr [JObj [("carrierCode", JStr carrier);
                                  ("departure", JObj [("at", JStr "2025-01-15T08:00:00")]);
                                  ("arrival", JObj [("at", JStr "2025-01-15T15:00:00")])]])]])].

Definition world : World := {|
  similarity_search := fun _ _ => Ret [];
  http_request := http_server;
  flight_offers_search := fun _ =>
    Ret (mkAmadeus (Some (JArr (map offer ["AF"; "BA"; "DL"; "UA"; "LH"; "KL"; "IB"]))));
  enhanced_search_flights := fun _ =>
    Ret (JObj [("status", JStr "error"); ("message", JStr "not available")]);
  amadeus_client_ok := fun _ _ => true;
  flight_handler_ok := fun _ _ => false;
  json_loads := loads;
  json_dumps := dumps;
  repr := dumps;
  int_of_str := fun _ => Exc (mkExn ValueError "invalid literal for int() with base 10");
  per_person := fun _ _ => Exc (mkExn ValueError "could not convert string to float");
  now_isoformat := "2025-01-01T00:00:00";
  uuid4 := "7f3c1d1e-0000-4000-8000-000000000000";
  elapsed_ms := 2003;
  getenv := fun _ => None;
  base_instructions := fun endpoints => "You are a helpful AI assistant." +:+ endpoints;
  settings_instructions := fun endpoints => "You are a helpful AI assistant." +:+ endpoints;
  function_definitions := fun ids => JArr []
|}.

Definition endpoint (id url : string) : json :=
  JObj [("id", JStr id); ("url", JStr url); ("description", JStr id)].

Definition config : json :=
  JObj [("endpoints",
         JArr [endpoint "joke" "https://jokes.test/random";
               endpoint "dog" "https://dog.test/api/breeds/image/random";
               endpoint "slow" "https://slow.test/";
               endpoint "broken" "https://broken.test/"])].

(** A proxy in the middle of a session: client socket 1 of session "s1",
    upstream socket 100. *)
Definition proxy0 : proxy :=
  mkProxy (Some "sk-test") (Some 100) {["s1" := 1]} ∅ true config true [] false [].

(** The same proxy when the vector store could not be initialised. *)
Definition unindexed : proxy :=
  mkProxy (Some "sk-test") (Some 100) {["s1" := 1]} ∅ false config true [] false [].

(** The demo server in the middle of a session. *)
Definition demo : Orchestrator.orchestrator :=
  Orchestrator.mkOrchestrator (Some 100) (Some 1)
    [("company_info", "Refund policy: 30-day money-back guarantee")] [].

(** A proxy started without an endpoint file, before any client. *)
Definition fresh : proxy :=
  mkProxy (Some "sk-test") None ∅ ∅ true (JObj [("endpoints", JArr [])]) false [] false [].

Definition start : server := mkServer fresh ∅.

(** The deployment of [Scenario] with an index that knows one chunk, found by
    the keyword search only. *)
Definition refund_chunk : Document :=
  mkDocument "Refunds are made within 30 days."
    (JObj [("file_id", JStr "f1"); ("chunk_index", JNum 0);
           ("filename", JStr "policy.txt"); ("total_chunks", JNum 1)]).

Definition stocked : World := {|
  similarity_search := fun query _ =>
    if json_eqb query (JStr "what is the") then Ret [refund_chunk] else Ret [];
  http_request := http_request world;
  flight_offers_search := flight_offers_search world;
  enhanced_search_flights := enhanced_search_flights world;
  amadeus_client_ok := amadeus_client_ok world;
  flight_handler_ok := flight_handler_ok world;
  json_loads := json_loads world;
  json_dumps := json_dumps world;
  repr := repr world;
  int_of_str := int_of_str world;
  per_person := per_person world;
  now_isoformat := now_isoformat world;
  uuid4 := uuid4 world;
  elapsed_ms := elapsed_ms world;
  getenv := getenv world;
  base_instructions := base_instructions world;
  settings_instructions := settings_instructions world;
  function_definitions := function_definitions world
|}.

End Scenario.

(* ================================================================= *)
(** ** Events of a turn *)

Definition speech_stopped_event : json :=
  JObj [("type", JStr "input_audio_buffer.speech_stopped")].

Definition response_created_event : json := JObj [("type", JStr "response.created")].

Definition transcript_delta_event (delta : json) : json :=
  JObj [("type", JStr "response.audio_transcript.delta"); ("delta", delta)].

Definition partial_event (transcript : json) : json :=
  JObj [("type", JStr "conversation.item.input_audio_transcription.partial");
        ("transcript", transcript)].

(** What the client gets for a delta of the assistant's transcript. *)
Definition assistant_delta (delta : json) : json :=
  JObj [("type", JStr "transcription"); ("text", delta); ("role", JStr "assistant")].

(** The event types [handle_openai_messages] has a branch for. *)
Definition handled_types : list string :=
  ["response.text.delta"; "response.audio.delta"; "response.audio_transcript.delta";
   "response.audio_transcript.done"; "response.created"; "response.done";
   "response.content_part.done";
   "conversation.item.input_audio_transcription.completed";
   "conversation.item.created";
   "conversation.item.input_audio_transcription.partial";
   "response.function_call_arguments.done"; "response.output_item.added";
   "response.function_call_arguments.delta"; "input_audio_buffer.speech_started";
   "input_audio_buffer.speech_stopped"; "conversation.item.truncated";
   "response.cancelled"; "error"].

(** Among them, those that are forwarded or dropped without a look at the
    transcript state and without a user transcript of their own. *)
Definition passive_types : list string :=
  ["response.text.delta"; "response.audio.delta"; "response.audio_transcript.done";
   "response.function_call_arguments.delta"; "input_audio_buffer.speech_started";
   "conversation.item.truncated"; "response.cancelled"].

(** An event that leaves the reconciliation alone: a dict of a passive type,
    or of a type the pump has no branch for. *)
Definition neutral (event : json) : bool :=
  match event with
  | JObj f =>
      match Py.lookup "type" f with
      | Some (JStr t) =>
          existsb (String.eqb t) passive_types || negb (existsb (String.eqb t) handled_types)
      | _ => true
      end
  | _ => false
  end.

Module Failing.

(** The deployment of [Scenario] with an Amadeus that never answers. *)
Definition stalled : World := {|
  similarity_search := similarity_search Scenario.world;
  http_request := http_request Scenario.world;
  flight_offers_search := fun _ => Hang;
  enhanced_search_flights := enhanced_search_flights Scenario.world;
  amadeus_client_ok := amadeus_client_ok Scenario.world;
  flight_handler_ok := flight_handler_ok Scenario.world;
  json_loads := json_loads Scenario.world;
  json_dumps := json_dumps Scenario.world;
  repr := repr Scenario.world;
  int_of_str := int_of_str Scenario.world;
  per_person := per_person Scenario.world;
  now_isoformat := now_isoformat Scenario.world;
  uuid4 := uuid4 Scenario.world;
  elapsed_ms := elapsed_ms Scenario.world;
  getenv := getenv Scenario.world;
  base_instructions := base_instructions Scenario.world;
  settings_instructions := settings_instructions Scenario.world;
  function_definitions := function_definitions Scenario.world
|}.

(** The deployment of [Scenario] with a vector store that never answers. *)
Definition unreachable : World := {|
  similarity_search := fun _ _ => Hang;
  http_request := http_request Scenario.world;
  flight_offers_search := flight_offers_search Scenario.world;
  enhanced_search_flights := enhanced_search_flights Scenario.world;
  amadeus_client_ok := amadeus_client_ok Scenario.world;
  flight_handler_ok := flight_handler_ok Scenario.world;
  json_loads := json_loads Scenario.world;
  json_dumps := json_dumps Scenario.world;
  repr := repr Scenario.world;
  int_of_str := int_of_str Scenario.world;
  per_person := per_person Scenario.world;
  now_isoformat := now_isoformat Scenario.world;
  uuid4 := uuid4 Scenario.world;
  elapsed_ms := elapsed_ms Scenario.world;
  getenv := getenv Scenario.world;
  base_instructions := base_instructions Scenario.world;
  settings_instructions := settings_instructions Scenario.world;
  function_definitions := function_definitions Scenario.world
|}.

Definition flight_params : json :=
  JObj [("origin", JStr "JFK"); ("destination", JStr "CDG");
        ("departure_date", JStr "2025-01-15")].

(** An [audio.input] message of the browser client. *)
Definition audio_input : json :=
  JObj [("type", JStr "audio.input"); ("audio", JStr "AAAA"); ("format", JStr "pcm16")].

(** One client that connects and leaves. *)
Definition one_session : list moment :=
  [Accept 1 "s1"; Handshake "s1" (Ret 100);
   ClientGone "s1"; UpstreamEnd "s1"; Teardown "s1"].

(** A second client that connects while the first is in its session. *)
Definition two_sessions : list moment :=
  [Accept 1 "s1"; Handshake "s1" (Ret 100);
   Accept 2 "s2"; Handshake "s2" (Ret 101)].

Definition first_leaves : list moment :=
  [ClientText "s1" audio_input; ClientGone "s1"; UpstreamEnd "s1"; Teardown "s1"].

End Failing.

Definition closes (ws : nat) (e : effect) : bool :=
  match e with
  | UpstreamClose w => Nat.eqb w ws
  | _ => false
  end.

Definition writes_upstream (ws : nat) (e : effect) : bool :=
  match e with
  | UpstreamSend w _ => Nat.eqb w ws
  | _ => false
  end.

(** The search request carries the cap. *)
Definition capped (e : effect) : Prop :=
  match e with
  | FlightOffersSearch search_params => field_of search_params "max" = Some (JNum 5)
  | _ => True
  end.

(** The envelope of the image scenario. *)
Definition dog_envelope (W : World) : json :=
  image_envelope W (JStr "dog") (JStr "http://x/img.png")
    (JStr "Here's a random dog picture!") (JStr "Here's a random dog picture!").

Definition is_client_send (e : effect) : bool :=
  match e with
  | ClientSend _ _ => true
  | _ => false
  end.

(* ================================================================= *)
(** ** Predicates on coroutines *)

(** [wp c Q s]: running [c] from [s] ends in an outcome and a state that
    satisfy [Q]. *)
Definition wp {S A} (c : State S A) (Q : outcome A -> S -> Prop) (s : S) : Prop :=
  Q (fst (c s)) (snd (c s)).

(** [extends P p p']: from [p] to [p'] the sockets are the same and the trace
    has grown by effects that satisfy [P]. *)
Definition extends (P : effect -> bool) (p p' : proxy) : Prop :=
  openai_ws p' = openai_ws p
  /\ client_connections p' = client_connections p
  /\ disconnected p' = disconnected p
  /\ exists added, trace p' = trace p ++ added /\ forallb P added = true.

Definition quiet {A} (P : effect -> bool) (c : M A) : Prop :=
  forall p, extends P p (snd (c p)).

(** A step that returns [a] and adds [added] to the trace. *)
Definition adds {A} (c : M A) (p : proxy) (a : A) (added : list effect) : Prop :=
  c p = (Ret a, set_trace (trace p ++ added) p).

(* ================================================================= *)
(** * Properties *)

(** ** Reasoning about coroutines *)


Lemma wp_ret {S A} (a : A) (Q : outcome A -> S -> Prop) p : Q (Ret a) p -> wp (ret a) Q p.
Proof. exact id. Qed.

Lemma wp_lift {S A} (o : outcome A) (Q : outcome A -> S -> Prop) p :
  Q o p -> wp (lift o) Q p.
Proof. exact id. Qed.

Lemma wp_raise {S A} (e : exn) (Q : outcome A -> S -> Prop) p :
  Q (Exc e) p -> wp (raise e) Q p.
Proof. exact id. Qed.

Lemma wp_read {S A} (f : S -> A) (Q : outcome A -> S -> Prop) p :
  Q (Ret (f p)) p -> wp (read f) Q p.
Proof. exact id. Qed.

Lemma wp_modify {S} (f : S -> S) (Q : outcome unit -> S -> Prop) p :
  Q (Ret tt) (f p) -> wp (modify f) Q p.
Proof. exact id. Qed.

Lemma wp_emit (e : effect) Q p :
  Q (Ret tt) (set_trace (trace p ++ [e]) p) -> wp (emit e) Q p.
Proof. exact id. Qed.

Lemma wp_bind {S A B} (c : State S A) (k : A -> State S B) (Q : outcome B -> S -> Prop) p :
  wp c (fun r p' =>
          match r with
          | Ret a => wp (k a) Q p'
          | Exc e => Q (Exc e) p'
          | Hang => Q Hang p'
          end) p ->
  wp (bind c k) Q p.
Proof.
  unfold wp, bind. destruct (c p) as [[a|e|] p']; simpl; auto.
Qed.

Lemma wp_try {S A} (c : State S A) (h : exn -> State S A) (Q : outcome A -> S -> Prop) p :
  wp c (fun r p' =>
          match r with
          | Exc e => wp (h e) Q p'
          | _ => Q r p'
          end) p ->
  wp (try_except c h) Q p.
Proof.
  unfold wp, try_except. destruct (c p) as [[a|e|] p']; simpl; auto.
Qed.

Lemma wp_mono {S A} (c : State S A) (Q Q' : outcome A -> S -> Prop) p :
  wp c Q p -> (forall r p', Q r p' -> Q' r p') -> wp c Q' p.
Proof. unfold wp. auto. Qed.

(** One step of symbolic execution. *)
Ltac wp_step :=
  lazymatch goal with
  | |- wp (bind _ _) _ _ => apply wp_bind
  | |- wp (try_except _ _) _ _ => apply wp_try
  | |- wp (ret _) _ _ => apply wp_ret
  | |- wp (lift _) _ _ => apply wp_lift
  | |- wp (raise _) _ _ => apply wp_raise
  | |- wp (read _) _ _ => apply wp_read
  | |- wp (modify _) _ _ => apply wp_modify
  | |- wp (emit _) _ _ => apply wp_emit
  | |- wp (if ?b then _ else _) _ _ => destruct b eqn:?
  | |- wp (match ?x with _ => _ end) _ _ => destruct x eqn:?
  | |- match ?x with _ => _ end => destruct x eqn:?
  end.

(** The steps that do not split the goal. *)
Ltac wp_move :=
  lazymatch goal with
  | |- wp (bind _ _) _ _ => apply wp_bind
  | |- wp (try_except _ _) _ _ => apply wp_try
  | |- wp (ret _) _ _ => apply wp_ret
  | |- wp (lift _) _ _ => apply wp_lift
  | |- wp (raise _) _ _ => apply wp_raise
  | |- wp (read _) _ _ => apply wp_read
  | |- wp (modify _) _ _ => apply wp_modify
  | |- wp (emit _) _ _ => apply wp_emit
  end.

(** Symbolic execution along the path that the rewriting tactic [known]
    decides. *)
Ltac wp_along known :=
  repeat (first [progress known | wp_move]; cbv beta iota).

(** ** Strings *)

Lemma eqb_sym_false (a b : string) : String.eqb a b = false -> String.eqb b a = false.
Proof. rewrite (String.eqb_sym a b). exact id. Qed.

(** ** [execute_workflow] *)

Lemma run_steps_spec (steps completed : list string) (p : proxy) :
  fst (run_steps steps completed p) = Ret (completed ++ steps)
  /\ trace (snd (run_steps steps completed p)) = trace p ++ repeat Sleep (length steps).
Proof.
  revert completed p. induction steps as [|step rest IH]; intros completed p.
  - simpl. now rewrite !app_nil_r.
  - cbn [run_steps]. unfold bind at 1. unfold bind at 1. cbn [emit].
    destruct (IH (completed ++ [step]) (set_trace (trace p ++ [Sleep]) p)) as [Hr Ht].
    split.
    + rewrite Hr. now rewrite <- app_assoc.
    + rewrite Ht. cbn. now rewrite <- app_assoc.
Qed.


Lemma execute_workflow_result W (workflow_type parameters : json) (steps : list string) p :
  workflows_get workflow_type = Ret steps ->
  fst (execute_workflow W workflow_type parameters p)
  = Ret (workflow_result W workflow_type steps parameters).
Proof.
  intros Hget. unfold execute_workflow, bind, lift. rewrite Hget.
  destruct (run_steps_spec steps [] p) as [Hr _].
  destruct (run_steps steps [] p) as [r p']. simpl in Hr. subst r. reflexivity.
Qed.

Lemma known_workflow_steps (k : string) :
  if known_workflow k
  then exists steps, workflow_steps workflows k = Some steps
                     /\ 4 <= length steps <= 5
  else workflow_steps workflows k = None.
Proof.
  unfold known_workflow, workflows. cbn [existsb workflow_steps].
  destruct (String.eqb k "customer_onboarding") eqn:E1.
  { apply String.eqb_eq in E1. subst k. cbn. eexists. split; [reflexivity | cbn; lia]. }
  destruct (String.eqb k "support_ticket") eqn:E2.
  { apply String.eqb_eq in E2. subst k. cbn. eexists. split; [reflexivity | cbn; lia]. }
  destruct (String.eqb k "order_processing") eqn:E3.
  { apply String.eqb_eq in E3. subst k. cbn. eexists. split; [reflexivity | cbn; lia]. }
  destruct (String.eqb k "data_analysis") eqn:E4.
  { apply String.eqb_eq in E4. subst k. cbn. eexists. split; [reflexivity | cbn; lia]. }
  cbn -[String.eqb]. rewrite (eqb_sym_false _ _ E1), (eqb_sym_false _ _ E2),
    (eqb_sym_false _ _ E3), (eqb_sym_false _ _ E4). reflexivity.
Qed.


(** ** [search_rag] *)


Lemma search_store_run W (query top_k : json) p :
  search_store W query top_k p
  = (similarity_search W query top_k,
     set_trace (trace p ++ [SimilaritySearch query top_k]) p).
Proof. reflexivity. Qed.

Lemma search_rag_unavailable W (query top_k : json) p :
  rag_store p = false ->
  search_rag W query top_k p
  = (Ret (JObj [("error", JStr "Knowledge base not initialized"); ("results", JArr [])]), p).
Proof.
  intros H. unfold search_rag, try_except, bind, read. rewrite H. reflexivity.
Qed.

Lemma rag_entry_indexed W i doc :
  indexed doc = true ->
  exists entry name, rag_entry W i doc = Ret (entry, JStr name).
Proof.
  unfold indexed, rag_entry. destruct (metadata doc) as [| | | | | |f]; try discriminate.
  cbn [Py.get obind]. intros H. apply andb_true_iff in H as [Hf Hc].
  destruct (Py.lookup "filename" f) as [[| | | |name| |]|]; try discriminate;
    destruct (Py.lookup "chunk_index" f) as [[| |n| | | |]|]; try discriminate;
    cbn [py_succ obind]; eexists; eexists; reflexivity.
Qed.

Lemma rag_entries_indexed W docs : forall i results sources,
  forallb indexed docs = true ->
  all_strings sources = true ->
  exists rs ss, rag_entries W i docs results sources = Ret (rs, ss)
                /\ all_strings ss = true.
Proof.
  induction docs as [|doc rest IH]; intros i results sources Hd Hs.
  - exists results, sources. split; [reflexivity | exact Hs].
  - cbn [forallb] in Hd. apply andb_true_iff in Hd as [Hdoc Hrest].
    destruct (rag_entry_indexed W i doc Hdoc) as (entry & name & He).
    cbn [rag_entries]. rewrite He. cbn [obind fst snd].
    apply IH; [exact Hrest |].
    destruct (json_mem (JStr name) sources); [exact Hs |].
    unfold all_strings in *. rewrite forallb_app, Hs. reflexivity.
Qed.

Lemma strings_of_all_strings l : forall i,
  all_strings l = true -> exists ws, strings_of l i = Ret ws.
Proof.
  induction l as [|v l IH]; intros i H.
  - exists []. reflexivity.
  - cbn [all_strings forallb] in H. apply andb_true_iff in H as [Hv Hl].
    destruct v; try discriminate. cbn [strings_of].
    destruct (IH (S i) Hl) as (ws & ->). eexists. reflexivity.
Qed.


Lemma found_documents_succeed W (query : json) (doc : Document) (docs : list Document) p
    (Q : outcome json -> proxy -> Prop) :
  forallb indexed (doc :: docs) = true ->
  (forall result, is_failure result = false -> Q (Ret result) p) ->
  wp (do rs <- lift (rag_entries W 0 (doc :: docs) [] []);
      do summary <- lift (rag_summary (fst rs) (snd rs));
      (ret (JObj [("query", query);
                  ("results", JArr (fst rs));
                  ("count", JNum (Z.of_nat (length (fst rs))));
                  ("sources", JArr (snd rs));
                  ("summary", JStr summary)]) : M json)) Q p.
Proof.
  intros Hd HQ.
  destruct (rag_entries_indexed W (doc :: docs) 0 [] [] Hd eq_refl) as (rs & ss & Hrs & Hss).
  destruct (strings_of_all_strings ss 0 Hss) as (ws & Hws).
  apply wp_bind, wp_lift. rewrite Hrs. cbv beta iota. cbn [fst snd].
  apply wp_bind, wp_lift. unfold rag_summary, py_join. rewrite Hws. cbn [obind].
  apply wp_ret. apply HQ. reflexivity.
Qed.



(** ** [search_flights] *)

Lemma substring_length_le (n : nat) (s : string) : String.length (substring 0 n s) <= n.
Proof.
  revert s. induction n as [|n IH]; intros [|c s]; cbn; try lia.
  specialize (IH s). lia.
Qed.

Lemma chars_length (s : string) : length (list_ascii_of_string s) = String.length s.
Proof. induction s as [|c s IH]; cbn; [reflexivity | now rewrite IH]. Qed.

Lemma first_offers_length (payload : json) (offers : list json) :
  first_offers payload = Ret offers -> length offers <= 5.
Proof.
  unfold first_offers. destruct payload; cbn; try discriminate.
  - intros [= <-]. rewrite length_map, chars_length.
    apply substring_length_le.
  - intros [= <-]. rewrite length_take. lia.
Qed.

Lemma parse_offers_length (info : json -> outcome (option json)) (offers flights found : list json) :
  parse_offers info offers flights = Ret found ->
  length found <= length flights + length offers.
Proof.
  revert flights. induction offers as [|offer rest IH]; intros flights; cbn.
  - intros [= <-]. lia.
  - destruct (info offer) as [[f|]|e|]; try discriminate; intros H; apply IH in H;
      rewrite ?length_app in H; cbn in H; lia.
Qed.


(** C10. A flight search through the built-in Amadeus path lists at most five
    offers: the request sent to Amadeus asks for at most five results, and
    the result keeps at most the first five offers of the response. *)
Theorem builtin_search_at_most_five (W : World) (params : json) (p : proxy) :
  flight_handler p = false ->
  let run := search_flights W params p in
  (forall result flights,
      fst run = Ret result -> flights_of result = Some flights -> length flights <= 5)
  /\ exists sent, trace (snd run) = trace p ++ sent /\ Forall capped sent.
Proof.
  intros Hno. cbv zeta.
  change (wp (search_flights W params)
            (fun r p' =>
               (forall result flights,
                   r = Ret result -> flights_of result = Some flights -> length flights <= 5)
               /\ exists sent, trace p' = trace p ++ sent /\ Forall capped sent) p).
  unfold search_flights.
  do 2 (wp_step; cbv beta iota). rewrite Hno. cbv beta iota.
  unfold builtin_search_flights.
  repeat (wp_step; cbv beta iota).
  all: split;
    [ intros result flights [= <-]; try discriminate
    | cbn [trace set_trace];
      first [ exists []; split; [now rewrite app_nil_r | constructor]
            | eexists; split; [reflexivity | repeat constructor] ] ].
  all: try (intros [= <-]; cbn; lia).
  cbn. intros [= <-].
  match goal with
  | H : parse_offers _ _ [] = Ret _, H' : first_offers _ = Ret _ |- _ =>
      apply parse_offers_length in H; apply first_offers_length in H'; cbn in H; lia
  end.
Qed.

Lemma builtin_search_at_most_five_witness :
  exists result flights,
    fst (search_flights Scenario.world Failing.flight_params Scenario.proxy0) = Ret result
    /\ flights_of result = Some flights
    /\ length flights <= 5.
Proof.
  eexists. eexists.
  split; [vm_compute; reflexivity |].
  split; [vm_compute; reflexivity |].
  eapply (proj1 (builtin_search_at_most_five Scenario.world Failing.flight_params
                   Scenario.proxy0 eq_refl)); vm_compute; reflexivity.
Defined.

(** ** What a capability leaves alone *)

Ltac ground_eqb :=
  repeat match goal with
         | |- context [String.eqb ?a ?b] =>
             let v := eval vm_compute in (String.eqb a b) in
             match v with
             | true => change (String.eqb a b) with true
             | false => change (String.eqb a b) with false
             end
         end.


Lemma extends_refl P p : extends P p p.
Proof.
  repeat split. exists []. now rewrite app_nil_r.
Qed.

Lemma extends_trans P p1 p2 p3 : extends P p1 p2 -> extends P p2 p3 -> extends P p1 p3.
Proof.
  intros (Ha & Hb & Hc & l1 & Hl1 & HP1) (Ha' & Hb' & Hc' & l2 & Hl2 & HP2).
  repeat split; try congruence.
  exists (l1 ++ l2). rewrite Hl2, Hl1, <- app_assoc. split; [reflexivity |].
  rewrite forallb_app, HP1, HP2. reflexivity.
Qed.

Lemma quiet_ret {A} P (a : A) : quiet P (ret a).
Proof. intros p. apply extends_refl. Qed.

Lemma quiet_lift {A} P (o : outcome A) : quiet P (lift o).
Proof. intros p. apply extends_refl. Qed.

Lemma quiet_raise {A} P (e : exn) : quiet P (raise e : M A).
Proof. intros p. apply extends_refl. Qed.

Lemma quiet_read {A} P (f : proxy -> A) : quiet P (read f).
Proof. intros p. apply extends_refl. Qed.

Lemma quiet_emit P (e : effect) : P e = true -> quiet P (emit e).
Proof.
  intros H p. repeat split. exists [e]. cbn. now rewrite H.
Qed.

Lemma quiet_set_amadeus P client creds :
  quiet P (modify (fun p => set_amadeus (client p) (creds p) p)).
Proof. intros p. repeat split. exists []. cbn. now rewrite app_nil_r. Qed.

Lemma quiet_set_flight_handler P h : quiet P (modify (set_flight_handler h)).
Proof. intros p. repeat split. exists []. cbn. now rewrite app_nil_r. Qed.

Lemma quiet_bind {A B} P (c : M A) (k : A -> M B) :
  quiet P c -> (forall a, quiet P (k a)) -> quiet P (bind c k).
Proof.
  intros Hc Hk p. unfold bind. specialize (Hc p).
  destruct (c p) as [[a|e|] p']; cbn in *; auto.
  eapply extends_trans; [exact Hc | apply Hk].
Qed.

Lemma quiet_try {A} P (c : M A) (h : exn -> M A) :
  quiet P c -> (forall e, quiet P (h e)) -> quiet P (try_except c h).
Proof.
  intros Hc Hh p. unfold try_except. specialize (Hc p).
  destruct (c p) as [[a|e|] p']; cbn in *; auto.
  eapply extends_trans; [exact Hc | apply Hh].
Qed.

Create HintDb quiet.

Ltac quiet_step :=
  lazymatch goal with
  | |- quiet _ (bind _ _) => apply quiet_bind; [| intro]
  | |- quiet _ (try_except _ _) => apply quiet_try; [| intro]
  | |- quiet _ (ret _) => apply quiet_ret
  | |- quiet _ (lift _) => apply quiet_lift
  | |- quiet _ (raise _) => apply quiet_raise
  | |- quiet _ (read _) => apply quiet_read
  | |- quiet _ (emit _) => apply quiet_emit; reflexivity
  | |- quiet _ (modify (set_flight_handler _)) => apply quiet_set_flight_handler
  | |- quiet _ (modify (fun p => set_amadeus _ _ p)) => apply quiet_set_amadeus
  | |- quiet _ (if ?b then _ else _) => destruct b
  | |- quiet _ (match ?x with _ => _ end) => destruct x
  | |- quiet _ _ => solve [auto with quiet]
  end.

Ltac quiet_auto := repeat (quiet_step; cbv beta iota).

Section Quiet.
Context (W : World).

Lemma quiet_search_rag query top_k : quiet is_provider_effect (search_rag W query top_k).
Proof. unfold search_rag, search_store. quiet_auto. Qed.

Lemma quiet_run_steps steps completed : quiet is_provider_effect (run_steps steps completed).
Proof.
  revert completed. induction steps as [|s r IH]; intros completed; cbn [run_steps].
  - apply quiet_ret.
  - apply quiet_bind; [apply quiet_emit; reflexivity | intros _; apply IH].
Qed.
#[local] Hint Resolve quiet_run_steps : quiet.

Lemma quiet_execute_workflow workflow_type parameters :
  quiet is_provider_effect (execute_workflow W workflow_type parameters).
Proof. unfold execute_workflow. quiet_auto. Qed.

Lemma quiet_request method url headers body : quiet is_provider_effect (request W method url headers body).
Proof. unfold request. quiet_auto. Qed.
#[local] Hint Resolve quiet_request : quiet.

Lemma quiet_legacy_get endpoint method url headers shape :
  quiet is_provider_effect (legacy_get W endpoint method url headers shape).
Proof. unfold legacy_get. quiet_auto. Qed.
#[local] Hint Resolve quiet_legacy_get : quiet.

Lemma quiet_call_api_legacy endpoint method params :
  quiet is_provider_effect (call_api_legacy W endpoint method params).
Proof. unfold call_api_legacy, legacy_branch. quiet_auto. Qed.
#[local] Hint Resolve quiet_call_api_legacy : quiet.

Lemma quiet_builtin_search_flights params : quiet is_provider_effect (builtin_search_flights W params).
Proof. unfold builtin_search_flights. quiet_auto. Qed.
#[local] Hint Resolve quiet_builtin_search_flights : quiet.

Lemma quiet_search_flights params : quiet is_provider_effect (search_flights W params).
Proof. unfold search_flights. quiet_auto. Qed.
#[local] Hint Resolve quiet_search_flights : quiet.

Lemma quiet_initialize_amadeus client_id client_secret :
  quiet is_provider_effect (initialize_amadeus W client_id client_secret).
Proof. unfold initialize_amadeus. quiet_auto. Qed.
#[local] Hint Resolve quiet_initialize_amadeus : quiet.

Lemma quiet_api_get endpoint method url headers :
  quiet is_provider_effect (api_get W endpoint method url headers).
Proof. unfold api_get. quiet_auto. Qed.
#[local] Hint Resolve quiet_api_get : quiet.

Lemma quiet_api_post endpoint method api params url headers :
  quiet is_provider_effect (api_post W endpoint method api params url headers).
Proof. unfold api_post. quiet_auto. Qed.
#[local] Hint Resolve quiet_api_post : quiet.

Lemma quiet_call_api endpoint method params : quiet is_provider_effect (call_api W endpoint method params).
Proof. unfold call_api. quiet_auto. Qed.

Lemma quiet_run_capability name arguments : quiet is_provider_effect (run_capability W name arguments).
Proof.
  unfold run_capability.
  pose proof quiet_search_rag. pose proof quiet_execute_workflow. pose proof quiet_call_api.
  quiet_auto.
Qed.

End Quiet.

(** ** Dispatch of a function call *)

Lemma count_app (f : effect -> bool) (l1 l2 : list effect) :
  count f (l1 ++ l2) = count f l1 + count f l2.
Proof. unfold count. now rewrite List.filter_app, length_app. Qed.

Lemma provider_effects_count (l : list effect) :
  forallb is_provider_effect l = true ->
  count is_invocation l = 0 /\ count is_function_output l = 0
  /\ count is_user_transcript l = 0.
Proof.
  induction l as [|e l IH]; cbn; [auto |].
  intros H. apply andb_true_iff in H as [He Hl]. specialize (IH Hl).
  destruct e; cbn in He; try discriminate; exact IH.
Qed.

Lemma function_output_counts ws call_id output :
  is_function_output (UpstreamSend ws (function_call_output call_id output)) = true.
Proof. reflexivity. Qed.

Lemma wp_quiet {A} P (c : M A) (Q : outcome A -> proxy -> Prop) p :
  quiet P c ->
  (forall p', extends P p p' -> Q (fst (c p)) p') ->
  wp c Q p.
Proof. intros Hq H. apply H, Hq. Qed.

(** What one dispatch adds to the trace, whatever the proxy has been through. *)
Lemma handle_function_call_trace W name arguments session_id call_id p :
  exists rest,
    trace (snd (handle_function_call W name arguments session_id call_id p))
    = trace p ++ Executing name arguments :: rest
    /\ count is_invocation rest = 0
    /\ count is_function_output rest
       = dispatch_sends W name arguments (set_trace (trace p ++ [Executing name arguments]) p)
    /\ count is_user_transcript rest = 0.
Proof.
  set (p0 := set_trace (trace p ++ [Executing name arguments]) p).
  change (wp (handle_function_call W name arguments session_id call_id)
            (fun _ p' =>
               exists rest,
                 trace p' = trace p ++ Executing name arguments :: rest
                 /\ count is_invocation rest = 0
                 /\ count is_function_output rest = dispatch_sends W name arguments p0
                 /\ count is_user_transcript rest = 0) p).
  unfold handle_function_call.
  do 2 (wp_step; cbv beta iota). fold p0.
  wp_step. apply wp_bind.
  apply (wp_quiet _ _ _ _ (quiet_run_capability W name arguments)).
  intros p1 (Hws & _ & _ & added & Htr & HP).
  apply provider_effects_count in HP as (Hinv & Hout & Husr).
  assert (Hbase : trace p1 = trace p ++ Executing name arguments :: added).
  { rewrite Htr. unfold p0. cbn [trace set_trace]. now rewrite <- app_assoc. }
  unfold dispatch_sends.
  destruct (fst (run_capability W name arguments p0)) as [[result [result_output|]]|e|];
    cbv beta iota; cbn [fst snd].
  - unfold send_to_client.
    do 2 (wp_step; cbv beta iota). rewrite Hws.
    destruct (openai_ws p0) as [ws|]; cbv beta iota.
    + repeat (wp_step; cbv beta iota); cbn [trace set_trace]; rewrite Hbase;
        repeat rewrite <- app_assoc; cbn [app];
        eexists; (split; [reflexivity |]);
        rewrite !count_app, Hinv, Hout, Husr; repeat split; reflexivity.
    + repeat (wp_step; cbv beta iota); cbn [trace set_trace]; rewrite Hbase;
        repeat rewrite <- app_assoc; cbn [app];
        try (exists added; repeat split; assumption);
        eexists; (split; [reflexivity |]);
        rewrite ?count_app, ?Hinv, ?Hout, ?Husr; repeat split; reflexivity.
  - repeat (wp_step; cbv beta iota). exists added. auto.
  - repeat (wp_step; cbv beta iota). exists added. auto.
  - exists added. auto.
Qed.

Lemma handle_function_call_returns W name arguments session_id call_id p :
  match fst (handle_function_call W name arguments session_id call_id p) with
  | Exc _ => False
  | _ => True
  end.
Proof.
  change (wp (handle_function_call W name arguments session_id call_id)
            (fun r _ => match r with Exc _ => False | _ => True end) p).
  unfold handle_function_call.
  do 3 (wp_step; cbv beta iota). unfold wp.
  match goal with
  | |- context [fst (?c ?q)] => destruct (c q) as [[r|e|] p']
  end; cbn; exact I.
Qed.

(** What the pump does with one completed function call. *)
Lemma handle_done_event W websocket session_id name call_id encoded arguments st p :
  json_loads W encoded = Ret arguments ->
  let run := handle_event W websocket session_id (done_event name call_id encoded) st p in
  let p1 := announced websocket name arguments p in
  (fst run = Ret st \/ fst run = Hang)
  /\ exists rest,
      trace (snd run) = trace p1 ++ rest
      /\ count is_invocation rest = 0
      /\ count is_function_output rest = dispatch_sends W name arguments p1
      /\ count is_user_transcript rest = 0.
Proof.
  intros Hargs. cbv zeta.
  change (wp (handle_event W websocket session_id (done_event name call_id encoded) st)
            (fun r p' =>
               (r = Ret st \/ r = Hang)
               /\ exists rest,
                   trace p' = trace (announced websocket name arguments p) ++ rest
                   /\ count is_invocation rest = 0
                   /\ count is_function_output rest
                      = dispatch_sends W name arguments (announced websocket name arguments p)
                   /\ count is_user_transcript rest = 0) p).
  unfold handle_event, done_event, send_json.
  cbn [Py.get_opt Py.get Py.lookup Py.eq_str]. ground_eqb. cbv beta iota.
  do 2 (wp_step; cbv beta iota). cbn [Py.eq_str]. ground_eqb. cbv beta iota.
  do 8 (wp_step; cbv beta iota). rewrite Hargs. cbv beta iota.
  do 3 (wp_step; cbv beta iota).
  unfold wp.
  pose proof (handle_function_call_returns W name arguments session_id call_id
                (set_trace (trace p ++ [ClientSend websocket (function_call_notice name arguments)]) p))
    as Hret.
  destruct (handle_function_call_trace W name arguments session_id call_id
              (set_trace (trace p ++ [ClientSend websocket (function_call_notice name arguments)]) p))
    as (rest & Htr & Hinv & Hout & Husr).
  unfold function_call_notice in *.
  destruct (handle_function_call W name arguments session_id call_id _) as [r p'].
  cbn [fst snd trace set_trace] in *.
  assert (Htr' : trace p' = trace (announced websocket name arguments p) ++ rest).
  { rewrite Htr. unfold announced, function_call_notice. cbn [trace set_trace].
    rewrite <- !app_assoc. reflexivity. }
  assert (Hout' : count is_function_output rest
                  = dispatch_sends W name arguments (announced websocket name arguments p)).
  { rewrite Hout. unfold announced, function_call_notice. cbn [trace set_trace].
    rewrite <- !app_assoc. reflexivity. }
  destruct r as [result|e|]; cbv beta iota; [| contradiction |].
  - unfold ret. cbn [fst snd]. split; [now left | exists rest; auto].
  - split; [now right | exists rest; auto].
Qed.

Lemma count_cons (f : effect -> bool) (e : effect) (l : list effect) :
  count f (e :: l) = (if f e then 1 else 0) + count f l.
Proof. unfold count. cbn. now destruct (f e). Qed.

(** ** The dispatch of the demo server *)

Lemma wp_orchestrator_emit (e : effect) Q (o : Orchestrator.orchestrator) :
  Q (Ret tt)
    (Orchestrator.mkOrchestrator (Orchestrator.openai_ws o) (Orchestrator.client_ws o)
       (Orchestrator.knowledge_base o) (Orchestrator.trace o ++ [e])) ->
  wp (Orchestrator.emit e) Q o.
Proof. exact id. Qed.

Ltac owp_step :=
  lazymatch goal with
  | |- wp (Orchestrator.emit _) _ _ => apply wp_orchestrator_emit
  | |- _ => wp_step
  end.

Ltac trace_leaf :=
  cbn [Orchestrator.trace Orchestrator.openai_ws Orchestrator.client_ws];
  rewrite <- ?app_assoc; cbn [app];
  repeat split; try discriminate; try reflexivity;
  eexists; split; [reflexivity | reflexivity].

Lemma execute_function_trace W name arguments (o : Orchestrator.orchestrator) :
  wp (Orchestrator.execute_function W name arguments)
    (fun r o' =>
       match r with Exc _ => False | _ => True end
       /\ Orchestrator.openai_ws o' = Orchestrator.openai_ws o
       /\ Orchestrator.client_ws o' = Orchestrator.client_ws o
       /\ exists rest,
           Orchestrator.trace o' = Orchestrator.trace o ++ Executing name arguments :: rest
           /\ forallb is_provider_effect rest = true) o.
Proof.
  unfold Orchestrator.execute_function, Orchestrator.function_branch, Orchestrator.on_200,
    Orchestrator.http_get.
  repeat (owp_step; cbv beta iota).
  all: cbn [Orchestrator.trace Orchestrator.openai_ws Orchestrator.client_ws];
    rewrite <- ?app_assoc; cbn [app].
  all: repeat split; try exact I.
  all: eexists; split; reflexivity.
Qed.

(** What the demo server does with one completed function call. *)
Lemma orchestrator_done_event W (o : Orchestrator.orchestrator) (ws : nat)
    (name call_id : json) (encoded : string) (arguments : json) :
  Orchestrator.openai_ws o = Some ws ->
  json_loads W encoded = Ret arguments ->
  let run := Orchestrator.handle_event W (done_event name call_id encoded) o in
  Orchestrator.openai_ws (snd run) = Some ws
  /\ exists added,
      Orchestrator.trace (snd run) = Orchestrator.trace o ++ added
      /\ count is_invocation added = 1
      /\ match fst run with
         | Ret _ => count is_function_output added = 1
         | Exc _ => False
         | Hang => count is_function_output added = 0
         end.
Proof.
  intros Hws Hargs. cbv zeta.
  change (wp (Orchestrator.handle_event W (done_event name call_id encoded))
            (fun r o' =>
               Orchestrator.openai_ws o' = Some ws
               /\ exists added,
                   Orchestrator.trace o' = Orchestrator.trace o ++ added
                   /\ count is_invocation added = 1
                   /\ match r with
                      | Ret _ => count is_function_output added = 1
                      | Exc _ => False
                      | Hang => count is_function_output added = 0
                      end) o).
  unfold Orchestrator.handle_event, done_event, Orchestrator.upstream_send,
    Orchestrator.client_send.
  cbn [Py.get_opt Py.get Py.lookup Py.eq_str]. ground_eqb. cbv beta iota.
  do 2 (wp_move; cbv beta iota). cbn [Py.eq_str]. ground_eqb. cbv beta iota.
  wp_along ltac:(rewrite Hargs).
  eapply wp_mono; [apply execute_function_trace |].
  intros r o' (Hr & Hup & Hcl & rest & Htr & Hprov).
  apply provider_effects_count in Hprov as (Hinv & Hout & _).
  destruct r as [result|e|]; [| contradiction |].
  - wp_along ltac:(rewrite Hup, Hws).
    do 2 (owp_step; cbv beta iota). wp_move; cbv beta iota. wp_move; cbv beta iota.
    cbn [Orchestrator.openai_ws]. rewrite Hup, Hws. cbv beta iota.
    owp_step; cbv beta iota. wp_move; cbv beta iota. wp_move; cbv beta iota.
    cbn [Orchestrator.client_ws]. destruct (Orchestrator.client_ws o'); cbv beta iota.
    + owp_step. cbn [Orchestrator.trace Orchestrator.openai_ws].
      split; [congruence |]. rewrite Htr, <- !app_assoc. cbn [app].
      eexists. split; [reflexivity |].
      rewrite !count_cons, !count_app, !count_cons, Hinv, Hout. cbn. split; reflexivity.
    + wp_move. cbn [Orchestrator.trace Orchestrator.openai_ws].
      split; [congruence |]. rewrite Htr, <- !app_assoc. cbn [app].
      eexists. split; [reflexivity |].
      rewrite !count_cons, !count_app, !count_cons, Hinv, Hout. cbn. split; reflexivity.
  - split; [congruence |]. rewrite Htr.
    eexists. split; [reflexivity |].
    rewrite !count_cons, Hinv, Hout. cbn. split; reflexivity.
Qed.

Lemma trace_announced websocket name arguments p :
  trace (announced websocket name arguments p)
  = trace p ++ [ClientSend websocket (function_call_notice name arguments);
                Executing name arguments].
Proof. reflexivity. Qed.




(** ** Reconciliation of the pending transcript *)


Lemma adds_bind {A B} (c : M A) (k : A -> M B) p a b l1 l2 :
  adds c p a l1 -> adds (k a) (set_trace (trace p ++ l1) p) b l2 ->
  adds (bind c k) p b (l1 ++ l2).
Proof.
  unfold adds, bind. intros -> ->. cbn [trace set_trace]. now rewrite app_assoc.
Qed.

Lemma adds_nil {A} (a : A) p : adds (ret a) p a [].
Proof. unfold adds, ret. rewrite app_nil_r. now destruct p. Qed.

Lemma handle_events_app W websocket session_id l1 l2 st p :
  handle_events W websocket session_id (l1 ++ l2) st p
  = bind (handle_events W websocket session_id l1 st)
         (fun st' => handle_events W websocket session_id l2 st') p.
Proof.
  revert st p. induction l1 as [|e l1 IH]; intros st p.
  - reflexivity.
  - cbn [app handle_events]. unfold bind in *.
    destruct (handle_event W websocket session_id e st p) as [[st'|ex|] p']; try reflexivity.
    apply IH.
Qed.

Lemma adds_skip {A} (a : A) p : (Ret a, p) = (Ret a, set_trace (trace p ++ []) p).
Proof. rewrite app_nil_r. now destruct p. Qed.

(** A neutral event is forwarded or dropped: the locals of the pump stay as
    they are and no user transcript goes out. *)
Lemma neutral_event W websocket session_id event st p :
  neutral event = true ->
  exists added,
    adds (handle_event W websocket session_id event st) p st added
    /\ count is_user_transcript added = 0.
Proof.
  intros Hn. destruct event as [| | | | |items|f]; try discriminate Hn.
  unfold adds, handle_event, send_json, bind, lift, ret, emit.
  cbn [Py.get_opt Py.get neutral] in *.
  destruct (Py.lookup "type" f) as [[| | | |t| |]|] eqn:Ht; cbn [Py.eq_str];
    try (exists []; split; [apply adds_skip | reflexivity]).
  apply orb_true_iff in Hn as [Hn | Hn].
  - unfold passive_types in Hn. cbn [existsb] in Hn.
    repeat (apply orb_true_iff in Hn as [Hn | Hn]); try discriminate Hn;
      apply String.eqb_eq in Hn; subst t; ground_eqb; cbv beta iota; cbn [fst snd].
    + eexists; split; reflexivity.
    + eexists; split; reflexivity.
    + destruct (Py.truthy _); cbn [fst snd].
      * eexists; split; reflexivity.
      * exists []; split; [apply adds_skip | reflexivity].
    + exists []; split; [apply adds_skip | reflexivity].
    + eexists; split; reflexivity.
    + eexists; split; reflexivity.
    + eexists; split; reflexivity.
  - apply negb_true_iff in Hn. unfold handled_types in Hn. cbn [existsb] in Hn.
    repeat (apply orb_false_iff in Hn as [? Hn]).
    repeat match goal with
           | H : String.eqb t _ = false |- _ => rewrite H; clear H
           end.
    exists []; split; [apply adds_skip | reflexivity].
Qed.

Lemma neutral_events W websocket session_id events st p :
  forallb neutral events = true ->
  exists added,
    adds (handle_events W websocket session_id events st) p st added
    /\ count is_user_transcript added = 0.
Proof.
  revert p. induction events as [|event rest IH]; intros p H.
  - exists []. split; [apply adds_nil | reflexivity].
  - cbn [forallb] in H. apply andb_true_iff in H as [He Hr].
    destruct (neutral_event W websocket session_id event st p He) as (l1 & H1 & C1).
    destruct (IH (set_trace (trace p ++ l1) p) Hr) as (l2 & H2 & C2).
    exists (l1 ++ l2). split.
    + cbn [handle_events]. eapply adds_bind; eassumption.
    + now rewrite count_app, C1, C2.
Qed.

Lemma speech_stopped_arms W websocket session_id st p :
  Py.truthy (last_user_transcript st) = true ->
  adds (handle_event W websocket session_id speech_stopped_event st) p
    (mkPump (last_user_transcript st) true)
    [ClientSend websocket (JObj [("type", JStr "speech_stopped")])].
Proof.
  intros Ht. unfold adds, handle_event, speech_stopped_event, send_json, bind, lift, ret, emit.
  cbn [Py.get_opt Py.get Py.lookup Py.eq_str]. ground_eqb. cbv beta iota.
  cbn [Py.eq_str]. ground_eqb. cbv beta iota. rewrite Ht. reflexivity.
Qed.

Lemma response_created_flushes W websocket session_id t p :
  Py.truthy t = true ->
  adds (handle_event W websocket session_id response_created_event (mkPump t true)) p
    (mkPump t false)
    [ClientSend websocket (transcription_complete t "user")].
Proof.
  intros Ht.
  unfold adds, handle_event, response_created_event, flush_pending, send_json, bind, lift,
    ret, emit.
  cbn [Py.get_opt Py.get Py.lookup Py.eq_str]. ground_eqb. cbv beta iota.
  cbn [Py.eq_str]. ground_eqb. cbv beta iota.
  cbn [pending_user_transcript last_user_transcript andb]. rewrite Ht. reflexivity.
Qed.

Lemma transcript_delta_after_flush W websocket session_id t delta p :
  adds (handle_event W websocket session_id (transcript_delta_event delta) (mkPump t false)) p
    (mkPump t false)
    [ClientSend websocket (assistant_delta delta)].
Proof.
  unfold adds, handle_event, transcript_delta_event, flush_pending, send_json, bind, lift,
    ret, emit.
  cbn [Py.get_opt Py.get Py.lookup Py.eq_str]. ground_eqb. cbv beta iota.
  cbn [Py.eq_str]. ground_eqb. cbv beta iota.
  cbn [pending_user_transcript last_user_transcript andb]. reflexivity.
Qed.

Lemma adds_events_app W websocket session_id l1 l2 st st1 st2 p a1 a2 :
  adds (handle_events W websocket session_id l1 st) p st1 a1 ->
  adds (handle_events W websocket session_id l2 st1) (set_trace (trace p ++ a1) p) st2 a2 ->
  adds (handle_events W websocket session_id (l1 ++ l2) st) p st2 (a1 ++ a2).
Proof.
  intros H1 H2. unfold adds. rewrite handle_events_app.
  exact (adds_bind _ _ _ _ _ _ _ H1 H2).
Qed.

Lemma adds_event_one W websocket session_id event st st' p a :
  adds (handle_event W websocket session_id event st) p st' a ->
  adds (handle_events W websocket session_id [event] st) p st' a.
Proof.
  intros H. cbn [handle_events]. rewrite <- (app_nil_r a).
  eapply adds_bind; [exact H | apply adds_nil].
Qed.




(** ** Audio ingress *)

(** C4 fails on the code.  The session is configured with server-side voice
    activity detection, and every PCM16 chunk that [forward_audio_to_openai]
    forwards is followed by a manual commit of the input buffer. *)
Theorem forward_audio_commits_under_vad (p0 : proxy) (ws : nat)
    (audio : json) (session_id : string) :
  let p := set_openai_ws (Some ws) p0 in
  trace (snd (forward_audio_to_openai audio (JStr "pcm16") session_id p))
  = trace p0 ++ [UpstreamSend ws (audio_append audio); UpstreamSend ws audio_commit]
  /\ trace (snd (forward_audio_to_openai audio JNull session_id p))
     = trace p0 ++ [UpstreamSend ws (audio_append audio); UpstreamSend ws audio_commit]
  /\ field_of turn_detection "type" = Some (JStr "server_vad")
  /\ (forall instructions voice temperature tools,
         match field_of (session_update instructions voice temperature tools) "session" with
         | Some session => field_of session "turn_detection" = Some turn_detection
         | None => False
         end)
  /\ trace (the_proxy (run Scenario.world Scenario.start
                         [Accept 1 "s1"; Handshake "s1" (Ret 100);
                          ClientText "s1" Failing.audio_input]))
     = [UpstreamSend 100
          (session_update
             ("You are a helpful AI assistant." +:+ " Speak at a normal, comfortable pace."
              +:+ " Always explain what you're doing when using functions.")
             (JStr "alloy") (JReal 7 10) (JArr []));
        ClientSend 1 (JObj [("type", JStr "connected"); ("session_id", JStr "s1")]);
        UpstreamSend 100 (audio_append (JStr "AAAA"));
        UpstreamSend 100 audio_commit].
Proof.
  cbv zeta. split; [| split; [| split; [| split]]].
  - cbn. now rewrite <- app_assoc.
  - cbn. now rewrite <- app_assoc.
  - reflexivity.
  - intros. reflexivity.
  - vm_compute. reflexivity.
Qed.

(** ** Timeouts *)


(** ** Failures of external endpoints *)

(** C6 fails on the code.  When the server behind a legacy endpoint, or
    behind a configured endpoint called with POST, answers 500, the call
    falls through to the fallback for unknown endpoints: the failure handed
    upstream names no status code.  The GET branch of a configured endpoint
    does report it. *)
Theorem status_code_lost_on_fallback :
  let legacy := handle_function_call Scenario.world (JStr "call_external_api")
                  (JObj [("endpoint", JStr "weather")]) "s1" (JStr "call_6")
                  (set_openai_ws (Some 100) Scenario.fresh) in
  let failure := api_error Scenario.world (JStr "weather") (JStr "GET")
                   "Unknown endpoint: weather" in
  fst legacy = Ret failure
  /\ trace (snd legacy)
     = [Executing (JStr "call_external_api") (JObj [("endpoint", JStr "weather")]);
        HttpRequest "GET" (JStr "https://wttr.in/New+York?format=j1") JNull None;
        UpstreamSend 100 (function_call_output (JStr "call_6") (Scenario.dumps failure));
        UpstreamSend 100 response_create]
  /\ Py.contains "500" (Scenario.dumps failure) = false
  /\ fst (call_api Scenario.world (JStr "broken") (JStr "POST") (JObj []) Scenario.proxy0)
     = Ret (api_error Scenario.world (JStr "broken") (JStr "POST") "Unknown endpoint: broken")
  /\ field_of
       (match fst (call_api Scenario.world (JStr "broken") (JStr "GET") (JObj [])
                     Scenario.proxy0) with
        | Ret result => result
        | _ => JNull
        end) "error"
     = Some (JStr "API returned status 500").
Proof.
  cbv zeta. repeat split; vm_compute; reflexivity.
Qed.

(** ** Ownership of the upstream socket *)

(** C3 fails on the code.  The proxy is one object with one [openai_ws]
    attribute: it stays set after the session that opened it is closed, a
    second client overwrites it while the first session is active, and the
    teardown of the first session then closes the socket of the second. *)
Theorem upstream_socket_is_shared :
  let W := Scenario.world in
  let one := run W Scenario.start Failing.one_session in
  let two := run W Scenario.start Failing.two_sessions in
  let later := run W two Failing.first_leaves in
  (phase_of one "s1" = Some CLOSED /\ upstream_transport one "s1" = Some 100)
  /\ (phase_of (run W Scenario.start [Accept 1 "s1"; Handshake "s1" (Ret 100); Accept 2 "s2"])
        "s2" = Some CONNECTING
      /\ upstream_transport
           (run W Scenario.start [Accept 1 "s1"; Handshake "s1" (Ret 100); Accept 2 "s2"])
           "s2" = Some 100)
  /\ (phase_of two "s1" = Some ACTIVE /\ phase_of two "s2" = Some ACTIVE
      /\ upstream_transport two "s1" = Some 101
      /\ upstream_transport two "s2" = Some 101)
  /\ (phase_of later "s1" = Some CLOSED /\ phase_of later "s2" = Some ACTIVE
      /\ trace (the_proxy later)
         = trace (the_proxy two)
           ++ [UpstreamSend 101 (audio_append (JStr "AAAA"));
               UpstreamSend 101 audio_commit;
               UpstreamClose 101]
      /\ count (closes 100) (trace (the_proxy later)) = 0).
Proof.
  cbv zeta. repeat split; vm_compute; reflexivity.
Qed.

(** ** Image results *)




